(** * Multi-vendor restaurant marketplace: accounts and vendor models

    A shallow embedding of the account and vendor logic of the marketplace
    ([accounts/models.py], [accounts/utils.py],
    [accounts/context_processors.py], [accounts/validators.py],
    [vendor/models.py]) together with the
    small part of the Python runtime these functions lean on: exceptions,
    string ordering, [datetime.time], [strftime] and [strptime]. *)

From Stdlib Require Import NArith ZArith QArith Ascii String List Bool Lia
  Permutation.
From stdpp Require Import base option gmap strings list.

Local Open Scope string_scope.
Local Open Scope N_scope.

(** ** Python runtime *)

Module Py.

(** The exceptions that the modelled code can let escape. *)
Inductive exn : Type :=
| ValueError
| KeyError
| TypeError
| UnboundLocalError
| DoesNotExist
| MultipleObjectsReturned
| TemplateDoesNotExist
| IntegrityError.

(** A pure computation that either returns or raises. *)
Inductive outcome (A : Type) : Type :=
| Ret (a : A)
| Raise (e : exn).
Arguments Ret {A} a.
Arguments Raise {A} e.

(** A computation over a store [S]: the store reached so far survives a
    raised exception, as the effects of a Python call do. *)
Inductive result (S A : Type) : Type :=
| Ok (a : A) (s : S)
| Err (e : exn) (s : S).
Arguments Ok {S A} a s.
Arguments Err {S A} e s.

Definition M (S A : Type) : Type := S -> result S A.

Definition ret {S A} (a : A) : M S A := fun s => Ok a s.

Definition bind {S A B} (m : M S A) (k : A -> M S B) : M S B :=
  fun s => match m s with
           | Ok a s' => k a s'
           | Err e s' => Err e s'
           end.

Definition raise {S A} (e : exn) : M S A := fun s => Err e s.

Definition lift {S A} (o : outcome A) : M S A :=
  fun s => match o with
           | Ret a => Ok a s
           | Raise e => Err e s
           end.

Definition gets {S A} (f : S -> A) : M S A := fun s => Ok (f s) s.

Definition modify {S} (f : S -> S) : M S unit := fun s => Ok tt (f s).

(** Run a computation on a part [T] of the store [S]. *)
Definition zoom {S T A} (get : S -> T) (put : T -> S -> S) (m : M T A)
  : M S A :=
  fun s => match m (get s) with
           | Ok a t => Ok a (put t s)
           | Err e t => Err e (put t s)
           end.

(** The store a computation ends in, whether it returns or raises. *)
Definition final {S A} (r : result S A) : S :=
  match r with
  | Ok _ s => s
  | Err _ s => s
  end.

(** [try: m except: h] with a bare [except], which catches everything. *)
Definition try_except {S A} (m : M S A) (h : M S A) : M S A :=
  fun s => match m s with
           | Ok a s' => Ok a s'
           | Err _ s' => h s'
           end.

Declare Scope py_scope.
Delimit Scope py_scope with py.
Notation "x <- m ;; k" := (bind m (fun x => k))
  (at level 100, m at next level, right associativity) : py_scope.
Notation "m ;;; k" := (bind m (fun _ => k))
  (at level 100, right associativity) : py_scope.

(** ** Strings

    A [str] is modelled by the sequence of its code points, each below 256:
    the characters of a [string] are read as code points, not as the bytes
    of an encoding. *)

(** Every code point of the string is below 128. *)
Fixpoint ascii_only (s : string) : bool :=
  match s with
  | EmptyString => true
  | String c r => (N_of_ascii c <? 128) && ascii_only r
  end.

(** [s1 < s2] on [str]: lexicographic on code points. *)
Definition str_lt (s1 s2 : string) : bool := String.ltb s1 s2.

(** Truthiness of an optional string: [None] and [''] are falsy. *)
Definition truthy (s : option string) : bool :=
  match s with
  | None => false
  | Some EmptyString => false
  | Some _ => true
  end.

Definition digit (d : N) : ascii := ascii_of_N (48 + d).

(** The decimal digits of [n], right-aligned in [w] columns, padded with
    zeros. *)
Fixpoint zero_pad (w : nat) (n : N) : string :=
  match w with
  | O => EmptyString
  | S w' => zero_pad w' (n / 10) +:+ String (digit (n mod 10)) EmptyString
  end.

(** ** [datetime.date] and [datetime.time] *)

(** A date, kept as its proleptic Gregorian ordinal. *)
Record date : Type := mk_date { toordinal : Z }.

(** [date.isoweekday]: [self.toordinal() % 7 or 7]. *)
Definition isoweekday (d : date) : Z :=
  let r := (toordinal d mod 7)%Z in
  if (r =? 0)%Z then 7%Z else r.

Record time : Type := mk_time {
  hour : N;
  minute : N;
  second : N;
  microsecond : N
}.

#[global] Instance time_eq_dec : EqDecision time.
Proof. solve_decision. Defined.

Definition valid_time (t : time) : Prop :=
  hour t < 24 /\ minute t < 60 /\ second t < 60 /\ microsecond t < 1000000.

(** Comparison of two naive [time] values: the tuples
    [(hour, minute, second, microsecond)] in lexicographic order. *)
Definition time_compare (a b : time) : comparison :=
  match hour a ?= hour b with
  | Eq => match minute a ?= minute b with
          | Eq => match second a ?= second b with
                  | Eq => microsecond a ?= microsecond b
                  | c => c
                  end
          | c => c
          end
  | c => c
  end.

Definition time_lt (a b : time) : bool :=
  match time_compare a b with Lt => true | _ => false end.

(** [t.replace(microsecond=0)]. *)
Definition whole_seconds (t : time) : time :=
  mk_time (hour t) (minute t) (second t) 0.

(** [t.strftime("%H:%M:%S")]. *)
Definition strftime_H_M_S (t : time) : string :=
  zero_pad 2 (hour t) +:+ ":" +:+ zero_pad 2 (minute t) +:+ ":"
    +:+ zero_pad 2 (second t).

(** [str(t)], that is [t.isoformat()]: the fraction is printed only when
    it is not zero. *)
Definition time_str (t : time) : string :=
  strftime_H_M_S t +:+
    (if microsecond t =? 0 then EmptyString
     else "." +:+ zero_pad 6 (microsecond t)).

(** [t.strftime('%I:%M %p')]. *)
Definition strftime_I_M_p (t : time) : string :=
  let h := hour t mod 12 in
  zero_pad 2 (if h =? 0 then 12 else h) +:+ ":" +:+ zero_pad 2 (minute t)
    +:+ " " +:+ (if hour t <? 12 then "AM" else "PM").

(** *** [datetime.strptime(s, "%I:%M %p").time()]

    The format compiles to the regular expression
    [(1[0-2]|0[1-9]|[1-9]):([0-5]\d|\d)\s+(am|pm)], matched ignoring case
    against the whole string.  Below 256 the digits of [\d] are the ten
    ASCII digits, and the white space of [\s] is the ASCII white space, the
    separators U+001C to U+001F, U+0085 and U+00A0. *)

Definition is_digit (c : ascii) : bool :=
  let n := N_of_ascii c in (48 <=? n) && (n <=? 57).

Definition digit_val (c : ascii) : N := N_of_ascii c - 48.

Definition is_space (c : ascii) : bool :=
  let n := N_of_ascii c in
  ((9 <=? n) && (n <=? 13)) || ((28 <=? n) && (n <=? 32))
  || (n =? 133) || (n =? 160).

Definition lower (c : ascii) : ascii :=
  let n := N_of_ascii c in
  if (65 <=? n) && (n <=? 90) then ascii_of_N (n + 32) else c.

(** [%I]: [1[0-2]|0[1-9]|[1-9]]; a colon has to follow, so the first
    alternative that matches is the only one that can. *)
Definition match_I (s : string) : option (N * string) :=
  match s with
  | String a (String b rest) =>
      let x := digit_val a in
      let y := digit_val b in
      if is_digit a && is_digit b
         && (((x =? 1) && (y <=? 2)) || ((x =? 0) && (1 <=? y)))
      then Some (10 * x + y, rest)
      else if is_digit a && (1 <=? x) then Some (x, String b rest)
      else None
  | String a EmptyString =>
      if is_digit a && (1 <=? digit_val a)
      then Some (digit_val a, EmptyString) else None
  | EmptyString => None
  end.

(** [%M]: [[0-5]\d|\d]. *)
Definition match_M (s : string) : option (N * string) :=
  match s with
  | String a (String b rest) =>
      if is_digit a && is_digit b && (digit_val a <=? 5)
      then Some (10 * digit_val a + digit_val b, rest)
      else if is_digit a then Some (digit_val a, String b rest)
      else None
  | String a EmptyString =>
      if is_digit a then Some (digit_val a, EmptyString) else None
  | EmptyString => None
  end.

Definition match_colon (s : string) : option string :=
  match s with
  | String c rest => if Ascii.eqb c ":" then Some rest else None
  | EmptyString => None
  end.

(** [\s*]: drop the leading white space. *)
Fixpoint skip_spaces (s : string) : string :=
  match s with
  | String c rest => if is_space c then skip_spaces rest else s
  | EmptyString => EmptyString
  end.

(** [\s+]. *)
Definition match_spaces (s : string) : option string :=
  match s with
  | String c rest => if is_space c then Some (skip_spaces rest) else None
  | EmptyString => None
  end.

(** [%p] up to the end of the input: [true] for PM. *)
Definition match_p (s : string) : option bool :=
  match s with
  | String a (String b EmptyString) =>
      if Ascii.eqb (lower b) "m" then
        if Ascii.eqb (lower a) "a" then Some false
        else if Ascii.eqb (lower a) "p" then Some true
        else None
      else None
  | _ => None
  end.

Definition strptime_I_M_p (s : string) : outcome time :=
  match match_I s with
  | None => Raise ValueError
  | Some (h, s1) =>
      match match_colon s1 with
      | None => Raise ValueError
      | Some s2 =>
          match match_M s2 with
          | None => Raise ValueError
          | Some (m, s3) =>
              match match_spaces s3 with
              | None => Raise ValueError
              | Some s4 =>
                  match match_p s4 with
                  | None => Raise ValueError
                  | Some pm =>
                      let h24 :=
                        if pm then (if h =? 12 then 12 else h + 12)
                        else (if h =? 12 then 0 else h) in
                      Ret (mk_time h24 m 0 0)
                  end
              end
          end
      end
  end.

End Py.

Import Py.

Local Open Scope py_scope.

(** ** Django's ORM, as far as the models use it *)

Module orm.

(** A table: the stored rows by primary key, and the next key of the
    auto-increment sequence. *)
Record table (A : Type) : Type := mk_table {
  rows : gmap Z A;
  next_pk : Z
}.
Arguments mk_table {A} rows next_pk.
Arguments rows {A} t.
Arguments next_pk {A} t.

Definition all {A} (t : table A) : list A := snd <$> map_to_list (rows t).

(** [Model.objects.get(pk=k)]. *)
Definition get_pk {A} (k : Z) (t : table A) : outcome A :=
  match rows t !! k with
  | Some a => Ret a
  | None => Raise DoesNotExist
  end.

(** [Model.objects.get(<condition>)]: exactly one row, or an exception. *)
Definition get {A} (p : A -> bool) (t : table A) : outcome A :=
  match List.filter p (all t) with
  | [] => Raise DoesNotExist
  | [a] => Ret a
  | _ => Raise MultipleObjectsReturned
  end.

(** The verdict of the ORM and of the database on the write of a row into
    a table: [None] when the row is accepted, or the exception raised when a
    related object is unsaved, a unique or one-to-one column is taken, a
    related row is missing or a value does not fit its column. *)
Class Database (A : Type) : Type := {
  refused : A -> table A -> option exn
}.

(** [models.Model.save]: a refused row raises and writes nothing; an
    accepted row with a key replaces or creates the row of that key; an
    accepted row without a key is inserted under the next key of the
    sequence, which has to be free. *)
Definition save {A} `{Database A} (pk : A -> option Z)
    (with_pk : Z -> A -> A) (self : A) : M (table A) A :=
  fun t =>
    match refused self t with
    | Some e => Err e t
    | None =>
        match pk self with
        | Some k => Ok self (mk_table (<[k := self]> (rows t)) (next_pk t))
        | None =>
            let k := next_pk t in
            match rows t !! k with
            | Some _ => Err IntegrityError t
            | None =>
                let self' := with_pk k self in
                Ok self' (mk_table (<[k := self']> (rows t)) (k + 1)%Z)
            end
        end
    end.

(** The write of [self] into [t] is accepted. *)
Definition writable {A} `{Database A} (pk : A -> option Z) (self : A)
    (t : table A) : Prop :=
  refused self t = None
  /\ (pk self = None -> rows t !! next_pk t = None).

End orm.

(** ** accounts/models.py *)

Module accounts_models.

(** [float(s)] for a [str] and the float literals of the language are the
    same correctly rounded conversion; how it rounds is left to the
    implementation of the interface. *)
Class Floats : Type := {
  float : Type;
  py_float : string -> outcome float
}.

(** [django.contrib.gis.geos.Point(x, y)]. *)
Record Point `{Floats} : Type := mk_Point { x : float; y : float }.
Arguments mk_Point {_} x y.

Record User : Type := mk_User {
  user_pk : option Z;
  first_name : string;
  last_name : string;
  username : string;
  email : string;
  phone_number : string;
  role : option Z;
  is_admin : bool;
  is_staff : bool;
  is_active : bool;
  is_superadmin : bool
}.

Definition VENDOR : Z := 1.
Definition CUSTOMER : Z := 2.

Definition ROLE_CHOICE : list (Z * string) :=
  [(VENDOR, "Vendor"); (CUSTOMER, "Customer")].

(** [role == n] on a nullable integer: [None] equals no integer. *)
Definition role_eq (r : option Z) (n : Z) : bool :=
  match r with
  | Some k => (k =? n)%Z
  | None => false
  end.

(** [User.get_role]: [user_role] is bound only in the two branches. *)
Definition get_role (self : User) : outcome string :=
  let user_role : option string :=
    if role_eq (role self) 1 then Some "Vendor"
    else if role_eq (role self) 2 then Some "Customer"
    else None in
  match user_role with
  | Some r => Ret r
  | None => Raise UnboundLocalError
  end.

(** The columns [created_at] and [modified_at], which the ORM fills in when
    it writes, are left out: a [UserProfile] is the row without them. *)
Record UserProfile `{Floats} : Type := mk_UserProfile {
  profile_pk : option Z;
  profile_user : option User;
  address : option string;
  country : option string;
  state : option string;
  city : option string;
  pin_code : option string;
  latitude : option string;
  longitude : option string;
  location : option Point
}.
Arguments mk_UserProfile {_} _ _ _ _ _ _ _ _ _ _.

Section UserProfile_methods.
Context `{Floats} `{orm.Database UserProfile}.

Definition with_profile_pk (k : Z) (p : UserProfile) : UserProfile :=
  mk_UserProfile (Some k) (profile_user p) (address p) (country p)
    (state p) (city p) (pin_code p) (latitude p) (longitude p)
    (location p).

Definition with_location (l : option Point) (p : UserProfile)
  : UserProfile :=
  mk_UserProfile (profile_pk p) (profile_user p) (address p) (country p)
    (state p) (city p) (pin_code p) (latitude p) (longitude p) l.

(** [float(self.<field>)] on a field that has passed the truth test. *)
Definition float_field (f : option string) : outcome float :=
  match f with
  | Some s => py_float s
  | None => Raise TypeError
  end.

(** [UserProfile.save]. *)
Definition UserProfile_save (self : UserProfile)
  : M (orm.table UserProfile) UserProfile :=
  if truthy (latitude self) && truthy (longitude self) then
    lon <- lift (float_field (longitude self)) ;;
    lat <- lift (float_field (latitude self)) ;;
    let self := with_location (Some (mk_Point lon lat)) self in
    orm.save profile_pk with_profile_pk self
  else
    orm.save profile_pk with_profile_pk self.

End UserProfile_methods.

End accounts_models.

(** ** accounts/utils.py *)

Module accounts_utils.
Import accounts_models.

(** The objects a template context can hold. *)
#[warnings="-register-all"] Inductive value : Type :=
| VNone
| VBool (b : bool)
| VStr (s : string)
| VList (l : list value)
| VUser (u : User).

(** [d[k]] on a [dict]. *)
Definition getitem (d : gmap string value) (k : string) : outcome value :=
  match d !! k with
  | Some v => Ret v
  | None => Raise KeyError
  end.

(** What the module takes from the framework: the settings and the
    template engine. *)
Class Django : Type := {
  DEFAULT_FROM_EMAIL : string;
  render_to_string : string -> gmap string value -> outcome string
}.

(** The truth value of an object. *)
Definition truth (v : value) : bool :=
  match v with
  | VNone => false
  | VBool b => b
  | VStr s => negb (String.eqb s EmptyString)
  | VList l => match l with [] => false | _ => true end
  | VUser _ => true
  end.

(** [django.core.mail.EmailMessage]: the attributes set by the constructor,
    with [content_subtype] ["plain"] until it is assigned. *)
Record EmailMessage : Type := mk_EmailMessage {
  subject : string;
  body : string;
  from_email : string;
  to : list value;
  content_subtype : string
}.

(** [EmailMessage(subject, body, from_email, to=to)]: a [to] that is true
    has to be a list, a [str] among others raises [TypeError]; a [to] that
    is false gives no recipient. *)
Definition new_EmailMessage (subject body from_email : string) (to : value)
  : outcome EmailMessage :=
  if truth to then
    match to with
    | VList l => Ret (mk_EmailMessage subject body from_email l "plain")
    | _ => Raise TypeError
    end
  else Ret (mk_EmailMessage subject body from_email [] "plain").

(** [mail.recipients()]: the recipients that are true. *)
Definition recipients (mail : EmailMessage) : list value :=
  List.filter truth (to mail).

Definition set_content_subtype (c : string) (m : EmailMessage)
  : EmailMessage :=
  mk_EmailMessage (subject m) (body m) (from_email m) (to m) c.

(** [mail.send()]: a message with no recipient is dropped; any other is
    handed to the mail backend.  The store is the log of the messages handed
    over, oldest first. *)
Definition send (mail : EmailMessage) : M (list EmailMessage) unit :=
  match recipients mail with
  | [] => ret tt
  | _ => modify (fun outbox => (outbox ++ [mail])%list)
  end.

(** [isinstance(v, str)]. *)
Definition isinstance_str (v : value) : bool :=
  match v with
  | VStr _ => true
  | _ => false
  end.

(** [detectUser]: a fall-through of the [if] chain returns [None]. *)
Definition detectUser (user : User) : option string :=
  if role_eq (role user) 1 then
    Some "vendorDashboard"
  else if role_eq (role user) 2 then
    Some "custDashboard"
  else if bool_decide (role user = None) && is_superadmin user then
    Some "/admin"
  else None.

Section notification.
Context `{Django}.

(** [send_notification]. *)
Definition send_notification (mail_subject mail_template : string)
    (context : gmap string value) : M (list EmailMessage) unit :=
  let from_email := DEFAULT_FROM_EMAIL in
  message <- lift (render_to_string mail_template context) ;;
  v <- lift (getitem context "to_email") ;;
  let to_email :=
    if isinstance_str v then VList ([] ++ [v])%list else v in
  mail <- lift (new_EmailMessage mail_subject message from_email
                  to_email) ;;
  let mail := set_content_subtype "html" mail in
  send mail.

End notification.

End accounts_utils.

(** ** vendor/models.py *)

Module vendor_models.
Import accounts_models accounts_utils.

Definition DAYS : list (Z * string) :=
  [(1, "Monday"); (2, "Tuesday"); (3, "Wednesday"); (4, "Thursday");
   (5, "Friday"); (6, "Saturday"); (7, "Sunday")]%Z.

(** [range(a, b)]. *)
Definition range (a b : N) : list N :=
  map (fun i => a + N.of_nat i) (seq 0 (N.to_nat (b - a))).

(** The half-hour slots of a day, each as a (value, label) choice. *)
Definition HOUR_OF_DAY_24 : list (string * string) :=
  flat_map
    (fun h =>
       map (fun m => (strftime_I_M_p (mk_time h m 0 0),
                      strftime_I_M_p (mk_time h m 0 0)))
           [0; 30])
    (range 0 24).

Record OpeningHour : Type := mk_OpeningHour {
  vendor_id : Z;
  day : Z;
  from_hour : string;
  to_hour : string;
  is_closed : bool
}.

(** [Meta.ordering = ('day', '-from_hour')]: [a] may come before [b]. *)
Definition meta_before (a b : OpeningHour) : bool :=
  (day a <? day b)%Z
  || ((day a =? day b)%Z && String.leb (from_hour b) (from_hour a)).

Fixpoint insert_ordered (a : OpeningHour) (l : list OpeningHour)
  : list OpeningHour :=
  match l with
  | [] => [a]
  | b :: l' =>
      if meta_before a b then a :: b :: l' else b :: insert_ordered a l'
  end.

Definition order_by_meta (l : list OpeningHour) : list OpeningHour :=
  fold_right insert_ordered [] l.

(** The clock readings [date.today()] and [datetime.now()]. *)
Record Clock : Type := mk_Clock {
  today : date;
  now : time
}.

(** The body of the [for] loop of [is_open], from the row [i] on;
    [is_open] is the value of the local variable when the row is reached. *)
Fixpoint is_open_from (current_time : string) (rows : list OpeningHour)
    (is_open : option bool) : outcome (option bool) :=
  match rows with
  | [] => Ret is_open
  | i :: rest =>
      if negb (is_closed i) then
        match strptime_I_M_p (from_hour i) with
        | Raise e => Raise e
        | Ret t1 =>
            let start := time_str t1 in
            match strptime_I_M_p (to_hour i) with
            | Raise e => Raise e
            | Ret t2 =>
                let end_ := time_str t2 in
                if str_lt start current_time && str_lt current_time end_
                then Ret (Some true)
                else is_open_from current_time rest (Some false)
            end
        end
      else is_open_from current_time rest is_open
  end.

Section models.
Context `{Floats} `{Django}.

(** The columns [created_at] and [modified_at], which the ORM fills in when
    it writes, are left out: a [Vendor] is the row without them. *)
Record Vendor : Type := mk_Vendor {
  vendor_pk : option Z;
  user : User;
  user_profile : UserProfile;
  vendor_name : string;
  vendor_slug : string;
  vendor_license : string;
  is_approved : bool
}.

Definition with_vendor_pk (k : Z) (v : Vendor) : Vendor :=
  mk_Vendor (Some k) (user v) (user_profile v) (vendor_name v)
    (vendor_slug v) (vendor_license v) (is_approved v).

Context `{orm.Database Vendor}.

(** The database and the mail backend.  The constraints of the schema, the
    one-to-one and the unique columns among them, are those of the database:
    [orm.refused] applies them where a row is written. *)
Record Store : Type := mk_Store {
  profiles : orm.table UserProfile;
  vendors : orm.table Vendor;
  opening_hours : list OpeningHour;
  outbox : list EmailMessage
}.

Definition put_vendors (t : orm.table Vendor) (s : Store) : Store :=
  mk_Store (profiles s) t (opening_hours s) (outbox s).

Definition put_profiles (t : orm.table UserProfile) (s : Store) : Store :=
  mk_Store t (vendors s) (opening_hours s) (outbox s).

Definition put_outbox (o : list EmailMessage) (s : Store) : Store :=
  mk_Store (profiles s) (vendors s) (opening_hours s) o.

(** [OpeningHour.objects.filter(vendor=self, day=today)], in the order of
    [Meta.ordering]. *)
Definition current_opening_hours (self : Vendor) (today : Z)
    (table : list OpeningHour) : list OpeningHour :=
  order_by_meta
    (List.filter
       (fun i => bool_decide (Some (vendor_id i) = vendor_pk self)
                 && (day i =? today)%Z)
       table).

(** [Vendor.is_open]. *)
Definition is_open (self : Vendor) (clock : Clock) (s : Store)
  : outcome (option bool) :=
  let today_date := today clock in
  let today := isoweekday today_date in
  let rows := current_opening_hours self today (opening_hours s) in
  let current_time := strftime_H_M_S (now clock) in
  is_open_from current_time rows None.

Definition approved_subject : string :=
  "Congratulations! Your restaurant has been approved.".

Definition rejected_subject : string :=
  "We're sorry! You are not eligible for publishing your food menu on our marketplace.".

Definition mail_template : string :=
  "accounts/emails/admin_approval_email.html".

(** The [context] dictionary that [save] builds for the approval mail. *)
Definition approval_context (self : Vendor) : gmap string value :=
  <["user" := VUser (user self)]>
    (<["is_approved" := VBool (is_approved self)]>
       (<["to_email" := VStr (email (user self))]> ∅)).

(** [Vendor.save]. *)
Definition save (self : Vendor) : M Store Vendor :=
  (match vendor_pk self with
   | Some pk =>
       orig <- zoom vendors put_vendors
                 (fun t => lift (orm.get_pk pk t) t) ;;
       if negb (Bool.eqb (is_approved orig) (is_approved self)) then
         let context := approval_context self in
         if Bool.eqb (is_approved self) true then
           let mail_subject := approved_subject in
           zoom outbox put_outbox
             (send_notification mail_subject mail_template context)
         else
           let mail_subject := rejected_subject in
           zoom outbox put_outbox
             (send_notification mail_subject mail_template context)
       else ret tt
   | None => ret tt
   end) ;;;
  zoom vendors put_vendors (orm.save vendor_pk with_vendor_pk self).

End models.

End vendor_models.

(** ** accounts/context_processors.py *)

Module context_processors.
Import accounts_models accounts_utils vendor_models.

(** [request.user]: the logged-in user, or the anonymous one. *)
Inductive request_user : Type :=
| AnonymousUser
| LoggedIn (u : User).

Record HttpRequest : Type := mk_HttpRequest { request_user_of : request_user }.

Section processors.
Context `{Floats} `{Django}.

(** [Model.objects.get(user=request.user)]: the anonymous user is not a
    value the [user] column can be compared with. *)
Definition get_by_user {A} (user_of : A -> option User) (request : HttpRequest)
    (t : orm.table A) : outcome A :=
  match request_user_of request with
  | AnonymousUser => Raise TypeError
  | LoggedIn u =>
      orm.get
        (fun a => match user_of a with
                  | Some u' => bool_decide (user_pk u' = user_pk u)
                  | None => false
                  end)
        t
  end.

Definition vendor_user (v : Vendor) : option User := Some (user v).

(** [get_vendor]. *)
Definition get_vendor (request : HttpRequest)
  : M Store (gmap string (option Vendor)) :=
  vendor <-
    try_except
      (v <- (fun s => lift (get_by_user vendor_user request
                                        (vendors s)) s) ;;
       ret (Some v))
      (ret None) ;;
  ret (<["vendor" := vendor]> ∅).

(** [get_user_profile]. *)
Definition get_user_profile (request : HttpRequest)
  : M Store (gmap string (option UserProfile)) :=
  user_profile <-
    try_except
      (p <- (fun s => lift (get_by_user profile_user request
                                        (profiles s)) s) ;;
       ret (Some p))
      (ret None) ;;
  ret (<["user_profile" := user_profile]> ∅).

End processors.

End context_processors.

(** ** Vocabulary of the statements about availability *)

Module availability.
Import vendor_models.

(** An open row whose two hours [strptime] accepts; a closed row is never
    parsed. *)
Definition well_formed (i : OpeningHour) : Prop :=
  is_closed i = false ->
  exists t1 t2,
    strptime_I_M_p (from_hour i) = Ret t1
    /\ strptime_I_M_p (to_hour i) = Ret t2.

(** The row is open and the time [t] lies strictly inside its window. *)
Definition window_contains (i : OpeningHour) (t : time) : Prop :=
  is_closed i = false
  /\ exists t1 t2,
       strptime_I_M_p (from_hour i) = Ret t1
       /\ strptime_I_M_p (to_hour i) = Ret t2
       /\ time_lt t1 t = true /\ time_lt t t2 = true.

(** The rows of the table that [is_open] reads for a vendor and a day are
    well formed. *)
Definition rows_well_formed `{accounts_models.Floats} (self : Vendor)
    (d : Z) (table : list OpeningHour) : Prop :=
  forall i,
    In i table ->
    Some (vendor_id i) = vendor_pk self -> day i = d -> well_formed i.

(** The test the loop of [is_open] makes on one row. *)
Definition open_at (current_time : string) (i : OpeningHour) : bool :=
  negb (is_closed i)
  && match strptime_I_M_p (from_hour i), strptime_I_M_p (to_hour i) with
     | Ret t1, Ret t2 =>
         str_lt (time_str t1) current_time
         && str_lt current_time (time_str t2)
     | _, _ => false
     end.

(** The answer as a function of the set of rows. *)
Definition verdict (current_time : string) (rows : list OpeningHour)
    (otherwise : option bool) : option bool :=
  if existsb (open_at current_time) rows then Some true
  else if existsb (fun i => negb (is_closed i)) rows then Some false
  else otherwise.

(** "Open exactly when the current time is strictly inside the window", the
    current time taken as the clock gives it. *)
Definition open_iff_strictly_inside : Prop :=
  forall (now : time) (i : OpeningHour),
    valid_time now -> well_formed i ->
    (is_open_from (strftime_H_M_S now) [i] None = Ret (Some true)
     <-> window_contains i now).

(** "Two orders of the same rows give two answers." *)
Definition order_dependent : Prop :=
  exists (current_time : string) (rows rows' : list OpeningHour),
    Forall well_formed rows
    /\ Permutation rows rows'
    /\ is_open_from current_time rows None
       <> is_open_from current_time rows' None.

(** "Comparing the strings is comparing the times", the probe taken as the
    clock gives it. *)
Definition string_order_is_time_order : Prop :=
  forall (slot : string) (t probe : time),
    In slot (map fst HOUR_OF_DAY_24) ->
    strptime_I_M_p slot = Ret t ->
    valid_time probe ->
    str_lt (time_str t) (strftime_H_M_S probe) = time_lt t probe
    /\ str_lt (strftime_H_M_S probe) (time_str t) = time_lt probe t.

End availability.

(** ** Sample data *)

Module samples.
Import accounts_models accounts_utils vendor_models context_processors.

(** Floats read as exact decimals: unsigned literals with at most one
    point. *)
Fixpoint read_decimal (s : string) (mantissa : N) (places : option N)
  : option (N * N) :=
  match s with
  | EmptyString => Some (mantissa, default 0 places)
  | String c r =>
      if is_digit c then
        read_decimal r (10 * mantissa + digit_val c) (N.succ <$> places)
      else if Ascii.eqb c "." && bool_decide (places = None) then
        read_decimal r mantissa (Some 0)
      else None
  end.

Definition decimal (s : string) : outcome Q :=
  match s with
  | EmptyString | "." => Raise ValueError
  | _ =>
      match read_decimal s 0 None with
      | Some (m, k) => Ret (Qred (Z.of_N m # N.succ_pos (10 ^ k - 1)))
      | None => Raise ValueError
      end
  end.

#[local] Instance decimal_floats : Floats :=
  {| float := Q; py_float := decimal |}.

#[local] Instance sample_django : Django :=
  {| DEFAULT_FROM_EMAIL := "noreply@foodonline.example";
     render_to_string := fun template _ =>
       match template with
       | EmptyString => Raise TemplateDoesNotExist
       | _ => Ret ("<html>" +:+ template +:+ "</html>")
       end |}.

Definition nine_to_five : OpeningHour :=
  mk_OpeningHour 3 1 "09:00 AM" "05:00 PM" false.

Definition evening : OpeningHour :=
  mk_OpeningHour 3 1 "06:00 PM" "10:00 PM" false.

Definition day_off : OpeningHour :=
  mk_OpeningHour 3 1 "12:00 AM" "12:00 AM" true.

Definition owner : User :=
  mk_User (Some 7%Z) "Asha" "Rao" "asha" "asha@example.org" "" (Some 1%Z)
    false false true false.

Definition admin : User :=
  mk_User (Some 1%Z) "Root" "Admin" "root" "root@example.org" "" None
    true true true true.

Definition home : UserProfile :=
  mk_UserProfile None (Some owner) None None None None None
    (Some "12.9") (Some "77.6") None.

Definition kitchen : Vendor :=
  mk_Vendor (Some 3%Z) owner home "Asha's Kitchen" "ashas-kitchen"
    "vendor/license/a.png" false.

Definition empty_table {A} : orm.table A := orm.mk_table ∅ 1%Z.

Definition store0 : Store :=
  mk_Store empty_table (orm.mk_table (<[3%Z := kitchen]> ∅) 4%Z)
    [nine_to_five; evening] [].

(** Closed on Monday, open on Tuesday. *)
Definition store1 : Store :=
  mk_Store empty_table (orm.mk_table (<[3%Z := kitchen]> ∅) 4%Z)
    [day_off; mk_OpeningHour 3 2 "09:00 AM" "05:00 PM" false] [].

(** Monday, 1 January 2024. *)
Definition monday : date := mk_date 738886.

End samples.

(** ** Further vocabulary for the opening hours *)

Module hours.
Import accounts_models vendor_models.

(** The row of the table is one that [is_open] reads for the vendor and
    the day. *)
Definition read_by `{Floats} (self : Vendor) (d : Z) (i : OpeningHour)
  : Prop :=
  Some (vendor_id i) = vendor_pk self /\ day i = d.

(** Both hours of the row are choices of [HOUR_OF_DAY_24]. *)
Definition uses_slots (i : OpeningHour) : Prop :=
  In (from_hour i) (map fst HOUR_OF_DAY_24)
  /\ In (to_hour i) (map fst HOUR_OF_DAY_24).

(** Both hours of the row are written in ASCII. *)
Definition plain (i : OpeningHour) : Prop :=
  ascii_only (from_hour i) = true /\ ascii_only (to_hour i) = true.

(** An open row with an hour that [strptime] rejects. *)
Definition malformed (i : OpeningHour) : Prop :=
  is_closed i = false
  /\ ((exists e, strptime_I_M_p (from_hour i) = Raise e)
      \/ (exists e, strptime_I_M_p (to_hour i) = Raise e)).

(** The rows that are not closed, in their order. *)
Definition open_rows (rows : list OpeningHour) : list OpeningHour :=
  List.filter (fun i => negb (is_closed i)) rows.

(** The store with another table of opening hours. *)
Definition with_opening_hours `{Floats} (rows : list OpeningHour)
    (s : Store) : Store :=
  mk_Store (profiles s) (vendors s) rows (outbox s).

End hours.

(** ** accounts/models.py: the manager and the permissions of [User] *)

Module accounts_managers.
Import accounts_models.

(** What the manager inherits: [BaseUserManager.normalize_email], and the
    hash that [set_password] stores for a raw password and the salt drawn
    for it. *)
Class Auth : Type := {
  normalize_email : option string -> string;
  make_password : option string -> string -> string
}.

(** A [User] with the part it inherits from [AbstractBaseUser]. *)
Record Account : Type := mk_Account {
  password : string;
  fields : User
}.

Definition account_pk (a : Account) : option Z := user_pk (fields a).

Definition with_user_pk (k : Z) (u : User) : User :=
  mk_User (Some k) (first_name u) (last_name u) (username u) (email u)
    (phone_number u) (role u) (is_admin u) (is_staff u) (is_active u)
    (is_superadmin u).

Definition with_account_pk (k : Z) (a : Account) : Account :=
  mk_Account (password a) (with_user_pk k (fields a)).

(** [self.model(email=..., username=..., first_name=..., last_name=...)]:
    the other fields take their defaults. *)
Definition model (email username first_name last_name : string) : Account :=
  mk_Account EmptyString
    (mk_User None first_name last_name username email EmptyString None
       false false false false).

(** The string held by an argument that has passed the truth test. *)
Definition str_of (s : option string) : string := default EmptyString s.

(** [User.has_perm] and [User.has_module_perms]. *)
Definition has_perm (self : User) (perm : string) : bool := is_admin self.

Definition has_module_perms (self : User) (app_label : string) : bool := true.

Section manager.
Context `{Auth} `{orm.Database Account}.

(** [user.set_password(raw)]. *)
Definition set_password (raw : option string) (salt : string) (a : Account)
  : Account :=
  mk_Account (make_password raw salt) (fields a).

(** [UserManager.create_user]. *)
Definition create_user (first_name last_name : string)
    (username email password : option string) (salt : string)
  : M (orm.table Account) Account :=
  if negb (truthy email) then raise ValueError
  else if negb (truthy username) then raise ValueError
  else
    let user :=
      model (normalize_email email) (str_of username) first_name last_name in
    let user := set_password password salt user in
    orm.save account_pk with_account_pk user.

(** The four assignments of [create_superuser]. *)
Definition grant_all (a : Account) : Account :=
  let u := fields a in
  mk_Account (password a)
    (mk_User (user_pk u) (first_name u) (last_name u) (username u) (email u)
       (phone_number u) (role u) true true true true).

(** [UserManager.create_superuser]. *)
Definition create_superuser (first_name last_name : string)
    (username email password : option string) (salt : string)
  : M (orm.table Account) Account :=
  user <- create_user first_name last_name username
            (Some (normalize_email email)) password salt ;;
  let user := grant_all user in
  orm.save account_pk with_account_pk user.

End manager.

End accounts_managers.

(** ** accounts/validators.py *)

Module validators.

(** [s.rfind(c)], scanning from index [i] with [found] the last index seen
    so far; [-1] when there is none. *)
Fixpoint rfind_from (c : ascii) (s : string) (i found : Z) : Z :=
  match s with
  | EmptyString => found
  | String a r =>
      rfind_from c r (i + 1)%Z (if Ascii.eqb a c then i else found)
  end.

Definition rfind (c : ascii) (s : string) : Z := rfind_from c s 0 (-1).

(** The slices [p[i:j]], [p[:j]] and [p[i:]] for indices that are not
    negative. *)
Definition slice (p : string) (i j : Z) : string :=
  substring (Z.to_nat i) (Z.to_nat (j - i)) p.

Definition slice_to (p : string) (j : Z) : string :=
  substring 0 (Z.to_nat j) p.

Definition slice_from (p : string) (i : Z) : string :=
  substring (Z.to_nat i) (String.length p - Z.to_nat i) p.

(** The [while] loop of [genericpath._splitext], which skips the leading
    dots of the file name: [true] when it meets another character before
    [dotIndex]; [rounds] is the number of rounds left. *)
Fixpoint skip_leading_dots (p : string) (filenameIndex dotIndex : Z)
    (rounds : nat) : bool :=
  match rounds with
  | O => false
  | S n =>
      if (filenameIndex <? dotIndex)%Z then
        if negb (String.eqb (slice p filenameIndex (filenameIndex + 1)) ".")
        then true
        else skip_leading_dots p (filenameIndex + 1) dotIndex n
      else false
  end.

(** [os.path.splitext] of [posixpath]. *)
Definition splitext (p : string) : string * string :=
  let sepIndex := rfind "/" p in
  let dotIndex := rfind "." p in
  if (sepIndex <? dotIndex)%Z then
    let filenameIndex := (sepIndex + 1)%Z in
    if skip_leading_dots p filenameIndex dotIndex
         (Z.to_nat (dotIndex - filenameIndex))
    then (slice_to p dotIndex, slice_from p dotIndex)
    else (p, slice_to p 0)
  else (p, slice_to p 0).

(** [s.lower()] on ASCII. *)
Fixpoint str_lower (s : string) : string :=
  match s with
  | EmptyString => EmptyString
  | String a r => String (lower a) (str_lower r)
  end.

(** [str(l)] for a list of strings free of quotes and escapes. *)
Definition repr_str (s : string) : string := "'" +:+ s +:+ "'".

Fixpoint join (sep : string) (l : list string) : string :=
  match l with
  | [] => EmptyString
  | [s] => s
  | s :: r => s +:+ sep +:+ join sep r
  end.

Definition str_list (l : list string) : string :=
  "[" +:+ join ", " (map repr_str l) +:+ "]".

(** The uploaded file, as far as the validator looks at it. *)
Record FieldFile : Type := mk_FieldFile { name : string }.

(** The validator returns, or raises [ValidationError] with a message. *)
Inductive validation : Type :=
| Passed
| ValidationError (message : string).

Definition valid_extensions : list string := [".png"; ".jpg"; ".jpeg"].

(** [x in l] on a list of strings. *)
Definition str_in (x : string) (l : list string) : bool :=
  existsb (String.eqb x) l.

(** [allow_only_images_validator]; the store is the standard output, a list
    of printed lines. *)
Definition allow_only_images_validator (value : FieldFile)
    (stdout : list string) : list string * validation :=
  let ext := snd (splitext (name value)) in
  let stdout := (stdout ++ [ext])%list in
  if negb (str_in (str_lower ext) valid_extensions) then
    (stdout,
     ValidationError
       ("Unsupported file extension. Allowed extensions: "
        +:+ str_list valid_extensions))
  else (stdout, Passed).

(** The character [c] occurs in [s]. *)
Fixpoint occurs (c : ascii) (s : string) : bool :=
  match s with
  | EmptyString => false
  | String a r => Ascii.eqb a c || occurs c r
  end.

(** [s] is made of dots only. *)
Fixpoint only_dots (s : string) : bool :=
  match s with
  | EmptyString => true
  | String a r => Ascii.eqb a "." && only_dots r
  end.

(** [pre] is a directory prefix: empty, or ending with the separator. *)
Definition directory_prefix (pre : string) : Prop :=
  pre = EmptyString \/ exists d, pre = d +:+ "/".

End validators.

(** ** More sample data *)

Module samples_more.
Import accounts_models accounts_utils vendor_models context_processors.
Import accounts_managers validators hours.

#[local] Existing Instance samples.decimal_floats.

(** A manager that leaves the email as it is and tags the password. *)
#[local] Instance sample_auth : Auth :=
  {| normalize_email := fun e => default EmptyString e;
     make_password := fun raw salt =>
       "tagged$" +:+ salt +:+ "$" +:+ default EmptyString raw |}.

(** A template engine that finds no template. *)
#[local] Instance no_templates : Django :=
  {| DEFAULT_FROM_EMAIL := "noreply@foodonline.example";
     render_to_string := fun _ _ => Raise TemplateDoesNotExist |}.

(** An open row saved with a blank opening hour. *)
Definition blank_from : OpeningHour :=
  mk_OpeningHour 3 1 EmptyString "05:00 PM" false.

(** A window over midnight. *)
Definition overnight : OpeningHour :=
  mk_OpeningHour 3 1 "10:00 PM" "02:00 AM" false.

(** A row of another vendor. *)
Definition elsewhere : OpeningHour :=
  mk_OpeningHour 9 1 EmptyString EmptyString false.

(** The vendor of the samples, approved. *)
Definition approved_kitchen : Vendor :=
  mk_Vendor (Some 3%Z) samples.owner samples.home "Asha's Kitchen"
    "ashas-kitchen" "vendor/license/a.png" true.

(** A database that enforces what the models declare: related objects that
    are saved, one-to-one columns that are free and unique columns that are
    free. *)
Definition others {A} (pk : A -> option Z) (self : A) (t : orm.table A)
  : list A :=
  snd <$> List.filter
            (fun kv => negb (bool_decide (pk self = Some (fst kv))))
            (map_to_list (orm.rows t)).

Definition same_key (a b : option Z) : bool :=
  match a, b with
  | Some x, Some y => (x =? y)%Z
  | _, _ => false
  end.

Definition same_user (a b : option User) : bool :=
  match a, b with
  | Some u, Some u' => same_key (user_pk u) (user_pk u')
  | _, _ => false
  end.

#[local] Instance profile_database : orm.Database UserProfile :=
  {| orm.refused := fun self t =>
       if match profile_user self with
          | Some u => bool_decide (user_pk u = None)
          | None => false
          end
       then Some ValueError
       else if existsb (fun p => same_user (profile_user p)
                                   (profile_user self))
                 (others profile_pk self t)
       then Some IntegrityError
       else None |}.

#[local] Instance vendor_database : orm.Database Vendor :=
  {| orm.refused := fun self t =>
       if bool_decide (user_pk (user self) = None)
          || bool_decide (profile_pk (user_profile self) = None)
       then Some ValueError
       else if existsb
                 (fun v =>
                    same_key (user_pk (user v)) (user_pk (user self))
                    || same_key (profile_pk (user_profile v))
                         (profile_pk (user_profile self))
                    || String.eqb (vendor_slug v) (vendor_slug self))
                 (others vendor_pk self t)
       then Some IntegrityError
       else None |}.

#[local] Instance account_database : orm.Database Account :=
  {| orm.refused := fun self t =>
       if existsb
            (fun a =>
               String.eqb (email (fields a)) (email (fields self))
               || String.eqb (username (fields a)) (username (fields self)))
            (others account_pk self t)
       then Some IntegrityError
       else None |}.

(** The stored profiles of the owner and of the administrator. *)
Definition home_saved : UserProfile :=
  mk_UserProfile (Some 5%Z) (Some samples.owner) None None None None None
    (Some "12.9") (Some "77.6") None.

Definition office : UserProfile :=
  mk_UserProfile (Some 6%Z) (Some samples.admin) None None None None None
    None None None.

(** The stored vendor of the owner, and the same vendor approved. *)
Definition diner : Vendor :=
  mk_Vendor (Some 3%Z) samples.owner home_saved "Asha's Diner" "ashas-diner"
    "vendor/license/d.png" false.

Definition approved_diner : Vendor :=
  mk_Vendor (Some 3%Z) samples.owner home_saved "Asha's Diner" "ashas-diner"
    "vendor/license/d.png" true.

(** A vendor that was never saved, for the administrator. *)
Definition new_stall : Vendor :=
  mk_Vendor None samples.admin office "Root Stall" "root-stall"
    "vendor/license/r.png" false.

(** The same with the slug of the stored vendor. *)
Definition copycat : Vendor :=
  mk_Vendor None samples.admin office "Root Stall" "ashas-diner"
    "vendor/license/r.png" false.

Definition store2 : Store :=
  mk_Store
    (orm.mk_table (<[5%Z := home_saved]> (<[6%Z := office]> ∅)) 7%Z)
    (orm.mk_table (<[3%Z := diner]> ∅) 4%Z)
    [samples.nine_to_five; samples.evening] [].

(** The accounts, with the administrator registered. *)
Definition registered : orm.table Account :=
  orm.mk_table (<[1%Z := mk_Account "tagged$pepper$root" samples.admin]> ∅)
    2%Z.

(** A profile that has lost its latitude and kept its point. *)
Definition moved : UserProfile :=
  mk_UserProfile None (Some samples.owner) None None None None None
    None (Some "77.6") (Some (mk_Point (1 # 1) (2 # 1))).

(** A profile with a latitude that is not a number. *)
Definition misread : UserProfile :=
  mk_UserProfile None (Some samples.owner) None None None None None
    (Some "north") (Some "77.6") None.

End samples_more.

(** * Properties *)

Import accounts_models accounts_utils vendor_models context_processors.

(** ** Zero-padded decimal strings are ordered like the numbers *)

Section string_order.

Lemma digit_compare (a b : N) :
  a < 10 -> b < 10 -> Ascii.compare (digit a) (digit b) = (a ?= b).
Proof.
  intros Ha Hb. unfold Ascii.compare, digit.
  rewrite !N_ascii_embedding by lia.
  destruct (N.compare_spec a b); subst.
  - apply N.compare_refl.
  - apply N.compare_lt_iff; lia.
  - apply N.compare_gt_iff; lia.
Qed.

Lemma zero_pad_2 (n : N) :
  zero_pad 2 n
  = String (digit ((n / 10) mod 10)) (String (digit (n mod 10)) EmptyString).
Proof. reflexivity. Qed.

Lemma two_digits_compare (a b : N) :
  a < 100 -> b < 100 ->
  (a ?= b) = match a / 10 ?= b / 10 with
             | Eq => a mod 10 ?= b mod 10
             | c => c
             end.
Proof.
  intros Ha Hb.
  pose proof (N.div_mod a 10 ltac:(lia)) as Ea.
  pose proof (N.div_mod b 10 ltac:(lia)) as Eb.
  pose proof (N.mod_lt a 10 ltac:(lia)) as La.
  pose proof (N.mod_lt b 10 ltac:(lia)) as Lb.
  generalize dependent (a / 10); generalize dependent (b / 10).
  generalize dependent (a mod 10); generalize dependent (b mod 10).
  intros rb Lb ra La qb Eb qa Ea.
  destruct (N.compare_spec qa qb) as [E|L|G].
  - destruct (N.compare_spec ra rb).
    + apply N.compare_eq_iff; lia.
    + apply N.compare_lt_iff; lia.
    + apply N.compare_gt_iff; lia.
  - apply N.compare_lt_iff; lia.
  - apply N.compare_gt_iff; lia.
Qed.

Lemma compare_zero_pad_2 (a b : N) (r1 r2 : string) :
  a < 100 -> b < 100 ->
  String.compare (zero_pad 2 a +:+ r1) (zero_pad 2 b +:+ r2)
  = match a ?= b with
    | Eq => String.compare r1 r2
    | c => c
    end.
Proof.
  intros Ha Hb. rewrite !zero_pad_2.
  cbv beta iota fix delta [String.append]. cbn [String.compare].
  assert (a / 10 < 10) by (apply N.Div0.div_lt_upper_bound; lia).
  assert (b / 10 < 10) by (apply N.Div0.div_lt_upper_bound; lia).
  rewrite !(N.mod_small (_ / 10) 10) by assumption.
  rewrite !digit_compare
    by (assumption || (apply N.mod_lt; lia)).
  rewrite (two_digits_compare a b Ha Hb).
  destruct (a / 10 ?= b / 10); reflexivity.
Qed.

End string_order.

(** ** Times and their string forms *)

Section time_strings.

Lemma append_empty (s : string) : s +:+ EmptyString = s.
Proof.
  induction s as [|c s IH]; [reflexivity|].
  cbv beta iota fix delta [String.append]. f_equal. exact IH.
Qed.

(** A time without a fraction prints as [%H:%M:%S]. *)
Lemma time_str_whole (t : time) :
  microsecond t = 0 -> time_str t = strftime_H_M_S t.
Proof.
  intros E. unfold time_str. rewrite E. apply append_empty.
Qed.

(** The lexicographic order of two [%H:%M:%S] strings is the order of the
    times, fractions of a second dropped. *)
Lemma compare_strftime (a b : time) :
  valid_time a -> valid_time b ->
  String.compare (strftime_H_M_S a) (strftime_H_M_S b)
  = time_compare (whole_seconds a) (whole_seconds b).
Proof.
  intros (Ha & Ma & Sa & _) (Hb & Mb & Sb & _).
  unfold strftime_H_M_S, time_compare, whole_seconds.
  cbn [hour minute second microsecond].
  rewrite compare_zero_pad_2 by lia.
  destruct (hour a ?= hour b); try reflexivity.
  change (":" +:+ ?r) with (String ":" r). cbn [String.compare].
  change (Ascii.compare ":" ":") with Eq. cbv iota.
  rewrite compare_zero_pad_2 by lia.
  destruct (minute a ?= minute b); try reflexivity.
  change (":" +:+ ?r) with (String ":" r). cbn [String.compare].
  change (Ascii.compare ":" ":") with Eq. cbv iota.
  rewrite <- (append_empty (zero_pad 2 (second a))).
  rewrite <- (append_empty (zero_pad 2 (second b))).
  rewrite compare_zero_pad_2 by lia.
  destruct (second a ?= second b); reflexivity.
Qed.

Lemma str_lt_strftime (a b : time) :
  valid_time a -> valid_time b ->
  str_lt (strftime_H_M_S a) (strftime_H_M_S b)
  = time_lt (whole_seconds a) (whole_seconds b).
Proof.
  intros Ha Hb. unfold str_lt, String.ltb, time_lt.
  rewrite compare_strftime by assumption. reflexivity.
Qed.

End time_strings.

(** ** What [strptime] returns *)

Section strptime_facts.

Lemma is_digit_val (c : ascii) : is_digit c = true -> digit_val c <= 9.
Proof.
  unfold is_digit, digit_val. cbv zeta.
  rewrite andb_true_iff, !N.leb_le. lia.
Qed.

Lemma match_I_range (s r : string) (h : N) :
  match_I s = Some (h, r) -> 1 <= h <= 12.
Proof.
  unfold match_I.
  destruct s as [|a [|b rest]]; [discriminate| |]; cbv zeta.
  - destruct (is_digit a && (1 <=? digit_val a)) eqn:E; [|discriminate].
    apply andb_true_iff in E as [D L]. apply is_digit_val in D.
    apply N.leb_le in L. intros [= <- _]. lia.
  - destruct (is_digit a && is_digit b && _) eqn:E.
    + apply andb_true_iff in E as [E C]. apply andb_true_iff in E as [Da Db].
      apply is_digit_val in Da, Db. intros [= <- _].
      rewrite orb_true_iff, !andb_true_iff, !N.eqb_eq, !N.leb_le in C. lia.
    + destruct (is_digit a && (1 <=? digit_val a)) eqn:E'; [|discriminate].
      apply andb_true_iff in E' as [D L]. apply is_digit_val in D.
      apply N.leb_le in L. intros [= <- _]. lia.
Qed.

Lemma match_M_range (s r : string) (m : N) :
  match_M s = Some (m, r) -> m < 60.
Proof.
  unfold match_M.
  destruct s as [|a [|b rest]]; [discriminate| |].
  - destruct (is_digit a) eqn:D; [|discriminate].
    apply is_digit_val in D. intros [= <- _]. lia.
  - destruct (is_digit a && is_digit b && _) eqn:E.
    + apply andb_true_iff in E as [E C]. apply andb_true_iff in E as [Da Db].
      apply is_digit_val in Da, Db. apply N.leb_le in C.
      intros [= <- _]. lia.
    + destruct (is_digit a) eqn:D; [|discriminate].
      apply is_digit_val in D. intros [= <- _]. lia.
Qed.

(** A parsed slot is a time of the day on a whole minute. *)
Lemma strptime_whole (s : string) (t : time) :
  strptime_I_M_p s = Ret t ->
  valid_time t /\ second t = 0 /\ microsecond t = 0.
Proof.
  unfold strptime_I_M_p.
  destruct (match_I s) as [[h s1]|] eqn:EI; [|discriminate].
  destruct (match_colon s1) as [s2|]; [|discriminate].
  destruct (match_M s2) as [[m s3]|] eqn:EM; [|discriminate].
  destruct (match_spaces s3) as [s4|]; [|discriminate].
  destruct (match_p s4) as [pm|]; [|discriminate].
  apply match_I_range in EI. apply match_M_range in EM.
  intros [= <-]. unfold valid_time. cbn [hour minute second microsecond].
  repeat split; try lia.
  destruct pm; destruct (N.eqb_spec h 12); lia.
Qed.

(** Every slot of the enumeration is parsed back to the time it was
    printed from. *)
Lemma slots_round_trip :
  forallb
    (fun h =>
       forallb
         (fun m =>
            match strptime_I_M_p (strftime_I_M_p (mk_time h m 0 0)) with
            | Ret t => bool_decide (t = mk_time h m 0 0)
            | Raise _ => false
            end)
         [0; 30])
    (range 0 24) = true.
Proof. vm_compute. reflexivity. Qed.

Lemma slots_parse (slot : string) :
  In slot (map fst HOUR_OF_DAY_24) -> exists t, strptime_I_M_p slot = Ret t.
Proof.
  assert (forallb (fun s => match strptime_I_M_p s with
                            | Ret _ => true
                            | Raise _ => false
                            end) (map fst HOUR_OF_DAY_24) = true) as A
    by (vm_compute; reflexivity).
  intros I. rewrite forallb_forall in A. specialize (A slot I).
  destruct (strptime_I_M_p slot) as [t|]; [eauto|discriminate].
Qed.

End strptime_facts.

(** ** The loop of [is_open] *)

Import availability.

Section loop_facts.

Lemma is_open_from_verdict (current_time : string) (rows : list OpeningHour) :
  Forall well_formed rows ->
  forall acc,
    is_open_from current_time rows acc = Ret (verdict current_time rows acc).
Proof.
  induction 1 as [|i rows Wi _ IH]; intros acc; [reflexivity|].
  cbn [is_open_from]. unfold verdict, open_at. cbn [existsb].
  destruct (is_closed i) eqn:C; cbn [negb andb orb].
  - rewrite IH. reflexivity.
  - destruct (Wi C) as (t1 & t2 & E1 & E2). rewrite E1, E2.
    destruct (str_lt (time_str t1) current_time
              && str_lt current_time (time_str t2)); cbn [orb].
    + reflexivity.
    + rewrite IH. unfold verdict, open_at.
      destruct (existsb _ rows); [reflexivity|].
      destruct (existsb _ rows); reflexivity.
Qed.

Lemma existsb_Permutation {A} (f : A -> bool) (l l' : list A) :
  Permutation l l' -> existsb f l = existsb f l'.
Proof.
  induction 1 as [|a l l' _ IH|a b l|l l' l'' _ IH1 _ IH2]; cbn [existsb].
  - reflexivity.
  - rewrite IH. reflexivity.
  - destruct (f a), (f b); reflexivity.
  - congruence.
Qed.

Lemma verdict_Permutation (current_time : string)
    (rows rows' : list OpeningHour) (acc : option bool) :
  Permutation rows rows' ->
  verdict current_time rows acc = verdict current_time rows' acc.
Proof.
  intros P. unfold verdict.
  rewrite (existsb_Permutation (open_at current_time) _ _ P).
  rewrite (existsb_Permutation (fun i => negb (is_closed i)) _ _ P).
  reflexivity.
Qed.

Lemma is_open_from_Permutation (current_time : string)
    (rows rows' : list OpeningHour) :
  Forall well_formed rows -> Permutation rows rows' ->
  is_open_from current_time rows None = is_open_from current_time rows' None.
Proof.
  intros W P.
  rewrite !is_open_from_verdict
    by (assumption || (eapply Permutation_Forall; eassumption)).
  f_equal. apply verdict_Permutation, P.
Qed.

Lemma whole_seconds_id (t : time) : microsecond t = 0 -> whole_seconds t = t.
Proof. destruct t; cbn. intros ->. reflexivity. Qed.

(** The two string comparisons of the loop, read on the times. *)
Lemma slot_before_now (t now : time) :
  valid_time t -> microsecond t = 0 -> valid_time now ->
  str_lt (time_str t) (strftime_H_M_S now) = time_lt t (whole_seconds now).
Proof.
  intros Vt Ut Vn. rewrite time_str_whole by assumption.
  rewrite str_lt_strftime by assumption.
  rewrite (whole_seconds_id t Ut). reflexivity.
Qed.

Lemma now_before_slot (t now : time) :
  valid_time t -> microsecond t = 0 -> valid_time now ->
  str_lt (strftime_H_M_S now) (time_str t) = time_lt (whole_seconds now) t.
Proof.
  intros Vt Ut Vn. rewrite time_str_whole by assumption.
  rewrite str_lt_strftime by assumption.
  rewrite (whole_seconds_id t Ut). reflexivity.
Qed.

Lemma open_at_window (now : time) (i : OpeningHour) :
  valid_time now ->
  open_at (strftime_H_M_S now) i = true
  <-> window_contains i (whole_seconds now).
Proof.
  intros Vn. unfold open_at, window_contains.
  rewrite andb_true_iff, negb_true_iff.
  split.
  - intros [C T]. split; [exact C|].
    destruct (strptime_I_M_p (from_hour i)) as [t1|] eqn:E1; [|discriminate].
    destruct (strptime_I_M_p (to_hour i)) as [t2|] eqn:E2; [|discriminate].
    destruct (strptime_whole _ _ E1) as (V1 & _ & U1).
    destruct (strptime_whole _ _ E2) as (V2 & _ & U2).
    rewrite slot_before_now, now_before_slot in T by assumption.
    apply andb_true_iff in T. exists t1, t2. tauto.
  - intros [C (t1 & t2 & E1 & E2 & L1 & L2)]. split; [exact C|].
    rewrite E1, E2.
    destruct (strptime_whole _ _ E1) as (V1 & _ & U1).
    destruct (strptime_whole _ _ E2) as (V2 & _ & U2).
    rewrite slot_before_now, now_before_slot by assumption.
    rewrite L1, L2. reflexivity.
Qed.

Lemma time_lt_irrefl (t : time) : time_lt t t = false.
Proof.
  unfold time_lt, time_compare. rewrite !N.compare_refl. reflexivity.
Qed.

End loop_facts.

(** ** The rows [is_open] iterates over *)

Section queryset.

Lemma insert_ordered_Permutation (a : OpeningHour) (l : list OpeningHour) :
  Permutation (insert_ordered a l) (a :: l).
Proof.
  induction l as [|b l IH]; cbn [insert_ordered]; [reflexivity|].
  destruct (meta_before a b); [reflexivity|].
  rewrite IH. apply perm_swap.
Qed.

Lemma order_by_meta_Permutation (l : list OpeningHour) :
  Permutation (order_by_meta l) l.
Proof.
  induction l as [|a l IH]; [reflexivity|].
  unfold order_by_meta. cbn [fold_right].
  rewrite insert_ordered_Permutation. apply perm_skip, IH.
Qed.

Lemma filter_Permutation_list {A} (p : A -> bool) (l l' : list A) :
  Permutation l l' -> Permutation (List.filter p l) (List.filter p l').
Proof.
  induction 1 as [|a l l' _ IH|a b l|l l' l'' _ IH1 _ IH2];
    cbn [List.filter].
  - reflexivity.
  - destruct (p a); [apply perm_skip|]; exact IH.
  - destruct (p a), (p b); try reflexivity. apply perm_swap.
  - etransitivity; eassumption.
Qed.

Context `{Floats} `{Django}.

Lemma current_opening_hours_In (self : Vendor) (d : Z)
    (table : list OpeningHour) (i : OpeningHour) :
  In i (current_opening_hours self d table)
  <-> In i table /\ Some (vendor_id i) = vendor_pk self /\ day i = d.
Proof.
  unfold current_opening_hours.
  split.
  - intros I.
    apply (Permutation_in _ (order_by_meta_Permutation _)) in I.
    apply List.filter_In in I as [I T].
    apply andb_true_iff in T as [V D].
    apply bool_decide_eq_true in V. apply Z.eqb_eq in D. tauto.
  - intros (I & V & D).
    apply (Permutation_in _ (Permutation_sym (order_by_meta_Permutation _))).
    apply List.filter_In. split; [exact I|].
    apply andb_true_iff. split.
    + apply bool_decide_eq_true. exact V.
    + apply Z.eqb_eq. exact D.
Qed.

Lemma current_opening_hours_well_formed (self : Vendor) (d : Z)
    (table : list OpeningHour) :
  rows_well_formed self d table ->
  Forall well_formed (current_opening_hours self d table).
Proof.
  intros W. apply List.Forall_forall. intros i I.
  apply current_opening_hours_In in I as (I & V & D). apply W; assumption.
Qed.

Lemma current_opening_hours_Permutation (self : Vendor) (d : Z)
    (table table' : list OpeningHour) :
  Permutation table table' ->
  Permutation (current_opening_hours self d table)
              (current_opening_hours self d table').
Proof.
  intros P. unfold current_opening_hours.
  rewrite !order_by_meta_Permutation. apply filter_Permutation_list, P.
Qed.

Lemma is_open_verdict (self : Vendor) (clock : Clock) (s : Store) :
  rows_well_formed self (isoweekday (today clock)) (opening_hours s) ->
  is_open self clock s
  = Ret (verdict (strftime_H_M_S (now clock))
           (current_opening_hours self (isoweekday (today clock))
              (opening_hours s))
           None).
Proof.
  intros W. unfold is_open.
  apply is_open_from_verdict, current_opening_hours_well_formed, W.
Qed.

Lemma verdict_open (current_time : string) (rows : list OpeningHour) :
  verdict current_time rows None = Some true
  <-> exists i, In i rows /\ open_at current_time i = true.
Proof.
  unfold verdict. rewrite <- List.existsb_exists.
  destruct (existsb (open_at current_time) rows).
  - tauto.
  - destruct (existsb _ rows); split; discriminate.
Qed.

End queryset.

(** ** Availability *)

Section availability_claims.
Context `{Floats} `{Django}.

(** C1, as amended: the evaluator answers OPEN exactly when an open row of the
    vendor for the day has a window that strictly contains the current time
    taken to the whole second: the fraction of the current second is dropped
    before the comparison.  With a single open row, a current time whose
    whole second is [from_hour] or [to_hour] is answered CLOSED.  For the
    row 09:00 AM - 05:00 PM the probes 09:00:00 and 17:00:00 are not open
    and the probe 12:00:00 is open. *)
Theorem is_open_strict_window :
  (forall (self : Vendor) (clock : Clock) (s : Store),
      valid_time (now clock) ->
      rows_well_formed self (isoweekday (today clock)) (opening_hours s) ->
      (is_open self clock s = Ret (Some true)
       <-> exists i,
             In i (opening_hours s)
             /\ Some (vendor_id i) = vendor_pk self
             /\ day i = isoweekday (today clock)
             /\ window_contains i (whole_seconds (now clock))))
  /\ (forall (now : time) (i : OpeningHour) (t1 t2 : time),
         valid_time now ->
         is_closed i = false ->
         strptime_I_M_p (from_hour i) = Ret t1 ->
         strptime_I_M_p (to_hour i) = Ret t2 ->
         whole_seconds now = t1 \/ whole_seconds now = t2 ->
         is_open_from (strftime_H_M_S now) [i] None = Ret (Some false))
  /\ is_open_from (strftime_H_M_S (mk_time 9 0 0 0)) [samples.nine_to_five]
       None = Ret (Some false)
  /\ is_open_from (strftime_H_M_S (mk_time 12 0 0 0)) [samples.nine_to_five]
       None = Ret (Some true)
  /\ is_open_from (strftime_H_M_S (mk_time 17 0 0 0)) [samples.nine_to_five]
       None = Ret (Some false).
Proof.
  split; [|split; [|repeat split; vm_compute; reflexivity]].
  - intros self clock s Vn W. rewrite is_open_verdict by exact W.
    split.
    + intros [= V]. apply verdict_open in V as (i & I & O).
      apply current_opening_hours_In in I as (I & V & D).
      apply open_at_window in O; [|exact Vn]. eauto 6.
    + intros (i & I & V & D & O). f_equal. apply verdict_open.
      exists i. split.
      * apply current_opening_hours_In. tauto.
      * apply open_at_window; assumption.
  - intros now i t1 t2 Vn C E1 E2 B.
    assert (well_formed i) as W by (intros _; eauto).
    rewrite is_open_from_verdict by (repeat constructor; exact W).
    f_equal. unfold verdict. cbn [existsb]. rewrite C. cbn [negb orb].
    destruct (open_at (strftime_H_M_S now) i) eqn:O; [|reflexivity].
    apply open_at_window in O as [_ (u1 & u2 & F1 & F2 & L1 & L2)];
      [|exact Vn].
    rewrite E1 in F1. rewrite E2 in F2.
    injection F1 as <-. injection F2 as <-.
    destruct B as [<-|<-].
    + rewrite time_lt_irrefl in L1. discriminate.
    + rewrite time_lt_irrefl in L2. discriminate.
Qed.

(** C2: when every row of the vendor for the current day is closed, and so
    when there is none, the evaluator returns [None], and [None] is not the
    answer CLOSED. *)
Theorem is_open_undetermined (self : Vendor) (clock : Clock) (s : Store) :
  (forall i,
      In i (opening_hours s) ->
      Some (vendor_id i) = vendor_pk self ->
      day i = isoweekday (today clock) ->
      is_closed i = true) ->
  is_open self clock s = Ret None
  /\ is_open self clock s <> Ret (Some false).
Proof.
  intros A.
  assert (forall rows,
             (forall i, In i rows -> is_closed i = true) ->
             is_open_from (strftime_H_M_S (now clock)) rows None = Ret None)
    as L.
  { induction rows as [|i rows IH]; intros C; [reflexivity|].
    cbn [is_open_from]. rewrite (C i) by (left; reflexivity).
    cbn [negb]. apply IH. intros j J. apply C. right. exact J. }
  assert (is_open self clock s = Ret None) as E.
  { unfold is_open. apply L. intros i I.
    apply current_opening_hours_In in I as (I & V & D). eauto. }
  split; [exact E|]. rewrite E. discriminate.
Qed.

(** C4, as amended: the answer does not depend on the order in which the
    rows are iterated.  For rows whose open windows [strptime] accepts it is
    OPEN when some open row contains the current time, else CLOSED when some
    row is open, else [None]; any two orders of the same rows, and any two
    orders of the stored table, give the same answer. *)
Theorem is_open_order_independent :
  (forall (current_time : string) (rows rows' : list OpeningHour),
      Forall well_formed rows -> Permutation rows rows' ->
      is_open_from current_time rows None
      = is_open_from current_time rows' None)
  /\ (forall (current_time : string) (rows : list OpeningHour),
         Forall well_formed rows ->
         is_open_from current_time rows None
         = Ret (verdict current_time rows None))
  /\ (forall (self : Vendor) (clock : Clock) (s s' : Store),
         rows_well_formed self (isoweekday (today clock))
           (opening_hours s) ->
         Permutation (opening_hours s) (opening_hours s') ->
         is_open self clock s = is_open self clock s').
Proof.
  split; [|split].
  - intros. apply is_open_from_Permutation; assumption.
  - intros. apply is_open_from_verdict. assumption.
  - intros self clock s s' W P. unfold is_open.
    apply is_open_from_Permutation.
    + apply current_opening_hours_well_formed, W.
    + apply current_opening_hours_Permutation, P.
Qed.

End availability_claims.

(** C4 as stated fails: no set of rows with windows has two orders with
    different answers. *)
Lemma order_dependent_fails : ~ order_dependent.
Proof.
  intros (current_time & rows & rows' & W & P & N).
  apply N, is_open_from_Permutation; assumption.
Qed.

(** C1 as stated fails: half a second after 09:00 the time is strictly
    inside the window 09:00 AM - 05:00 PM and the answer is CLOSED. *)
Lemma open_iff_strictly_inside_fails : ~ open_iff_strictly_inside.
Proof.
  intros A.
  assert (is_open_from (strftime_H_M_S (mk_time 9 0 0 500000))
            [samples.nine_to_five] None = Ret (Some true)) as E.
  { apply A.
    - unfold valid_time. cbn. lia.
    - intros _. eexists _, _. split; vm_compute; reflexivity.
    - split; [reflexivity|].
      eexists _, _. repeat split; vm_compute; reflexivity. }
  vm_compute in E. discriminate E.
Qed.

(** ** String comparison against time comparison *)

Lemma time_lt_whole_seconds_r (probe t : time) :
  microsecond t = 0 ->
  time_lt (whole_seconds probe) t = time_lt probe t.
Proof.
  intros U. unfold time_lt, time_compare, whole_seconds.
  cbn [hour minute second microsecond]. rewrite U.
  destruct (hour probe ?= hour t); try reflexivity.
  destruct (minute probe ?= minute t); try reflexivity.
  destruct (second probe ?= second t); try reflexivity.
  destruct (N.compare_spec (microsecond probe) 0); try reflexivity. lia.
Qed.

(** C10, as amended: for a slot of the enumeration and any probe, comparing
    the [HH:MM:SS] strings is comparing the slot with the probe cut to the
    whole second.  For the test [current < end] that is the direct
    comparison of the times, for every probe; for the test
    [start < current] it is the direct comparison when the probe has no
    fraction of a second. *)
Theorem string_order_is_whole_second_order (slot : string) (probe : time) :
  In slot (map fst HOUR_OF_DAY_24) ->
  valid_time probe ->
  exists t,
    strptime_I_M_p slot = Ret t
    /\ str_lt (time_str t) (strftime_H_M_S probe)
       = time_lt t (whole_seconds probe)
    /\ str_lt (strftime_H_M_S probe) (time_str t) = time_lt probe t
    /\ (microsecond probe = 0 ->
        str_lt (time_str t) (strftime_H_M_S probe) = time_lt t probe).
Proof.
  intros I V. destruct (slots_parse slot I) as [t E]. exists t.
  destruct (strptime_whole _ _ E) as (Vt & _ & Ut).
  split; [exact E|].
  rewrite slot_before_now, now_before_slot by assumption.
  split; [reflexivity|]. split.
  - apply time_lt_whole_seconds_r, Ut.
  - intros U. rewrite (whole_seconds_id probe U). reflexivity.
Qed.

(** C10 as stated fails: half a second after 09:00 the clock is after the
    slot 09:00 AM, and its string is not. *)
Lemma string_order_is_time_order_fails : ~ string_order_is_time_order.
Proof.
  intros A.
  destruct (A "09:00 AM" (mk_time 9 0 0 0) (mk_time 9 0 0 500000)) as [E _].
  - vm_compute. tauto.
  - vm_compute. reflexivity.
  - unfold valid_time. cbn. lia.
  - vm_compute in E. discriminate E.
Qed.

(** ** Roles and redirects *)

(** C9: [get_role] is partial.  It returns ['Vendor'] for role 1 and
    ['Customer'] for role 2; for every other role, the null role of an
    administrator among them, it raises, [user_role] never having been
    assigned. *)
Theorem get_role_partial (u : User) :
  (role u = Some 1%Z -> get_role u = Ret "Vendor")
  /\ (role u = Some 2%Z -> get_role u = Ret "Customer")
  /\ (role u <> Some 1%Z -> role u <> Some 2%Z ->
      get_role u = Raise UnboundLocalError).
Proof.
  unfold get_role, role_eq.
  destruct (role u) as [r|]; repeat split; try discriminate;
    try reflexivity.
  - intros [= ->]. reflexivity.
  - intros [= ->]. reflexivity.
  - intros N1 N2.
    destruct (Z.eqb_spec r 1) as [->|_]; [congruence|].
    destruct (Z.eqb_spec r 2) as [->|_]; [congruence|]. reflexivity.
Qed.

(** C6: [detectUser] gives the vendor dashboard for role 1, the customer
    dashboard for role 2, the admin route for a null role with the
    superadmin flag, and no route ([None]) for every other combination. *)
Theorem detectUser_routes (u : User) :
  (role u = Some 1%Z -> detectUser u = Some "vendorDashboard")
  /\ (role u = Some 2%Z -> detectUser u = Some "custDashboard")
  /\ (role u = None -> is_superadmin u = true -> detectUser u = Some "/admin")
  /\ (role u <> Some 1%Z -> role u <> Some 2%Z ->
      role u <> None \/ is_superadmin u = false ->
      detectUser u = None).
Proof.
  unfold detectUser, role_eq.
  destruct (role u) as [r|]; repeat split; try discriminate.
  - intros [= ->]. reflexivity.
  - intros [= ->]. reflexivity.
  - intros N1 N2 _.
    destruct (Z.eqb_spec r 1) as [->|_]; [congruence|].
    destruct (Z.eqb_spec r 2) as [->|_]; [congruence|]. reflexivity.
  - intros _ ->. reflexivity.
  - intros _ _ [N| ->]; [congruence|]. rewrite andb_false_r. reflexivity.
Qed.

(** ** The derived location of a profile *)

Section location.
Context `{Floats} `{orm.Database UserProfile}.

Lemma truthy_Some (s : string) : s <> EmptyString -> truthy (Some s) = true.
Proof. destruct s; [congruence|reflexivity]. Qed.

(** What a [save] of the ORM that returns has done. *)
Lemma orm_save_Ok {A} `{orm.Database A} (pk : A -> option Z)
    (with_pk : Z -> A -> A) (self saved : A) (t t' : orm.table A) :
  (forall k a, pk (with_pk k a) = Some k) ->
  orm.save pk with_pk self t = Ok saved t' ->
  exists k,
    pk saved = Some k
    /\ orm.rows t' !! k = Some saved
    /\ (forall k', k' <> k -> orm.rows t' !! k' = orm.rows t !! k')
    /\ (pk self = Some k /\ saved = self /\ orm.next_pk t' = orm.next_pk t
        \/ pk self = None /\ k = orm.next_pk t
           /\ saved = with_pk (orm.next_pk t) self
           /\ orm.rows t !! k = None
           /\ orm.next_pk t' = (orm.next_pk t + 1)%Z).
Proof.
  intros P. unfold orm.save.
  destruct (orm.refused self t); [discriminate|].
  destruct (pk self) as [k|] eqn:E.
  - intros [= <- <-]. exists k. cbn [orm.rows orm.next_pk].
    split; [exact E|]. split; [apply lookup_insert_eq|].
    split; [intros k' N; apply lookup_insert_ne; congruence|].
    left. tauto.
  - destruct (orm.rows t !! orm.next_pk t) eqn:F; [discriminate|].
    intros [= <- <-]. exists (orm.next_pk t). cbn [orm.rows orm.next_pk].
    split; [apply P|]. split; [apply lookup_insert_eq|].
    split; [intros k' N; apply lookup_insert_ne; congruence|].
    right. tauto.
Qed.

(** A [save] of the ORM that raises has written nothing. *)
Lemma orm_save_Err {A} `{orm.Database A} (pk : A -> option Z)
    (with_pk : Z -> A -> A) (self : A) (t t' : orm.table A) (e : exn) :
  orm.save pk with_pk self t = Err e t' -> t' = t.
Proof.
  unfold orm.save.
  destruct (orm.refused self t); [congruence|].
  destruct (pk self); [discriminate|].
  destruct (orm.rows t !! orm.next_pk t); [congruence|discriminate].
Qed.

(** An accepted write returns. *)
Lemma orm_save_writable {A} `{orm.Database A} (pk : A -> option Z)
    (with_pk : Z -> A -> A) (self : A) (t : orm.table A) :
  orm.writable pk self t ->
  exists saved t', orm.save pk with_pk self t = Ok saved t'.
Proof.
  intros [R F]. unfold orm.save. rewrite R.
  destruct (pk self); [eauto|]. rewrite (F eq_refl). eauto.
Qed.

Lemma UserProfile_save_run (self : UserProfile) (t : orm.table UserProfile)
    (lat lon : string) (fx fy : float) :
  latitude self = Some lat -> lat <> EmptyString ->
  longitude self = Some lon -> lon <> EmptyString ->
  py_float lon = Ret fx ->
  py_float lat = Ret fy ->
  UserProfile_save self t
  = orm.save profile_pk with_profile_pk
      (with_location (Some (mk_Point fx fy)) self) t.
Proof.
  intros Elat Nlat Elon Nlon Fx Fy. unfold UserProfile_save.
  rewrite Elat, Elon, !truthy_Some by assumption. cbn [andb].
  unfold bind, lift, float_field. rewrite Fx, Fy. reflexivity.
Qed.

Lemma saved_profile_fields (self saved : UserProfile)
    (t t' : orm.table UserProfile) :
  orm.save profile_pk with_profile_pk self t = Ok saved t' ->
  location saved = location self
  /\ latitude saved = latitude self
  /\ longitude saved = longitude self
  /\ exists k, profile_pk saved = Some k
               /\ orm.rows t' !! k = Some saved.
Proof.
  intros E.
  destruct (orm_save_Ok profile_pk with_profile_pk _ _ _ _
              (fun _ _ => eq_refl) E)
    as (k & Pk & Row & _ & [(_ & -> & _)|(_ & _ & -> & _)]);
    repeat split; eauto.
Qed.

(** C5: a profile saved with a latitude and a longitude that are present and
    that [float] reads gets the point [(float(longitude), float(latitude))]
    as its location, the longitude first: whenever [save] returns, the
    profile it returns has that point; and when the database accepts the
    row, [save] returns and the row is stored with it.  With latitude "12.9"
    and longitude "77.6" the point is (77.6, 12.9). *)
Theorem UserProfile_save_location (self : UserProfile)
    (t : orm.table UserProfile) (lat lon : string) (fx fy : float) :
  latitude self = Some lat -> lat <> EmptyString ->
  longitude self = Some lon -> lon <> EmptyString ->
  py_float lon = Ret fx ->
  py_float lat = Ret fy ->
  (forall saved t',
      UserProfile_save self t = Ok saved t' ->
      location saved = Some (mk_Point fx fy)
      /\ latitude saved = Some lat /\ longitude saved = Some lon)
  /\ (orm.writable profile_pk (with_location (Some (mk_Point fx fy)) self)
        t ->
      exists saved t' k,
        UserProfile_save self t = Ok saved t'
        /\ location saved = Some (mk_Point fx fy)
        /\ latitude saved = Some lat /\ longitude saved = Some lon
        /\ profile_pk saved = Some k
        /\ orm.rows t' !! k = Some saved
        /\ (lat = "12.9" -> lon = "77.6" ->
            forall a b, py_float "77.6" = Ret a -> py_float "12.9" = Ret b ->
                        location saved = Some (mk_Point a b))).
Proof.
  intros Elat Nlat Elon Nlon Fx Fy.
  rewrite (UserProfile_save_run self t lat lon fx fy) by assumption.
  split.
  - intros saved t' E.
    destruct (saved_profile_fields _ _ _ _ E) as (L & La & Lo & _).
    rewrite L, La, Lo. cbn. tauto.
  - intros W.
    destruct (orm_save_writable _ with_profile_pk _ _ W) as (saved & t' & E).
    destruct (saved_profile_fields _ _ _ _ E)
      as (L & La & Lo & k & Pk & Row).
    exists saved, t', k. rewrite L, La, Lo. cbn [location latitude longitude
      with_location]. repeat split; try assumption.
    intros -> -> a b Fa Fb. congruence.
Qed.

End location.


(** ** Notifications *)

Section notifications.
Context `{Floats} `{Django} `{orm.Database Vendor}.

Lemma filter_nil_existsb {A} (p : A -> bool) (l : list A) :
  match List.filter p l with
  | [] => existsb p l = false
  | _ => existsb p l = true
  end.
Proof.
  induction l as [|a l IH]; cbn; [reflexivity|].
  destruct (p a); [reflexivity|exact IH].
Qed.

(** [send] hands the message over exactly when a recipient is true. *)
Lemma send_run (mail : EmailMessage) (o : list EmailMessage) :
  send mail o
  = Ok tt (if existsb truth (to mail) then (o ++ [mail])%list else o).
Proof.
  unfold send, recipients.
  pose proof (filter_nil_existsb truth (to mail)) as E.
  destruct (List.filter truth (to mail)); rewrite E; reflexivity.
Qed.

Lemma new_EmailMessage_list (mail_subject body from : string)
    (l : list value) :
  new_EmailMessage mail_subject body from (VList l)
  = Ret (mk_EmailMessage mail_subject body from l "plain").
Proof. destruct l; reflexivity. Qed.

Lemma send_notification_list (mail_subject template : string)
    (context : gmap string value) (o : list EmailMessage)
    (body : string) (l : list value) :
  render_to_string template context = Ret body ->
  context !! "to_email" = Some (VList l) ->
  send_notification mail_subject template context o
  = Ok tt (if existsb truth l
           then (o ++ [mk_EmailMessage mail_subject body DEFAULT_FROM_EMAIL
                         l "html"])%list
           else o).
Proof.
  intros R L. unfold send_notification, bind, lift, getitem.
  rewrite R, L. cbn [isinstance_str]. rewrite new_EmailMessage_list.
  apply send_run.
Qed.

Lemma send_notification_str (mail_subject template : string)
    (context : gmap string value) (o : list EmailMessage)
    (body addr : string) :
  render_to_string template context = Ret body ->
  context !! "to_email" = Some (VStr addr) ->
  send_notification mail_subject template context o
  = Ok tt (if String.eqb addr EmptyString then o
           else (o ++ [mk_EmailMessage mail_subject body DEFAULT_FROM_EMAIL
                         [VStr addr] "html"])%list).
Proof.
  intros R L. unfold send_notification, bind, lift, getitem.
  rewrite R, L. cbn [isinstance_str app]. rewrite new_EmailMessage_list.
  rewrite send_run. cbn [to set_content_subtype existsb truth orb].
  destruct (String.eqb addr EmptyString); reflexivity.
Qed.


Lemma approval_context_to_email (self : Vendor) :
  approval_context self !! "to_email" = Some (VStr (email (user self))).
Proof.
  unfold approval_context.
  rewrite lookup_insert_ne by discriminate.
  rewrite lookup_insert_ne by discriminate.
  apply lookup_insert_eq.
Qed.

Lemma put_vendors_id (s : Store) : put_vendors (vendors s) s = s.
Proof. destruct s. reflexivity. Qed.

Lemma put_outbox_id (s : Store) : put_outbox (outbox s) s = s.
Proof. destruct s. reflexivity. Qed.

(** The mail that [save] hands over for a vendor, once rendered. *)
Lemma approval_mail_run (self : Vendor) (mail_subject : string)
    (o : list EmailMessage) :
  send_notification mail_subject mail_template (approval_context self) o
  = match render_to_string mail_template (approval_context self) with
    | Ret body =>
        Ok tt (if String.eqb (email (user self)) EmptyString then o
               else (o ++ [mk_EmailMessage mail_subject body
                             DEFAULT_FROM_EMAIL
                             [VStr (email (user self))] "html"])%list)
    | Raise e => Err e o
    end.
Proof.
  destruct (render_to_string mail_template (approval_context self))
    as [body|e] eqn:R.
  - apply (send_notification_str _ _ _ _ _ _ R
             (approval_context_to_email self)).
  - unfold send_notification, bind, lift. rewrite R. reflexivity.
Qed.

(** [save], path by path: what is handed to the mail backend, and then the
    write. *)
Lemma save_run (self : Vendor) (s : Store) :
  save self s
  = match vendor_pk self with
    | None =>
        zoom vendors put_vendors (orm.save vendor_pk with_vendor_pk self) s
    | Some k =>
        match orm.rows (vendors s) !! k with
        | None => Err DoesNotExist s
        | Some orig =>
            if Bool.eqb (is_approved orig) (is_approved self) then
              zoom vendors put_vendors
                (orm.save vendor_pk with_vendor_pk self) s
            else
              match render_to_string mail_template (approval_context self)
              with
              | Raise e => Err e s
              | Ret body =>
                  zoom vendors put_vendors
                    (orm.save vendor_pk with_vendor_pk self)
                    (if String.eqb (email (user self)) EmptyString then s
                     else
                       put_outbox
                         (outbox s
                          ++ [mk_EmailMessage
                                (if is_approved self then approved_subject
                                 else rejected_subject)
                                body DEFAULT_FROM_EMAIL
                                [VStr (email (user self))] "html"])%list s)
              end
        end
    end.
Proof.
  unfold save, bind.
  destruct (vendor_pk self) as [k|] eqn:Pk; [|reflexivity].
  unfold zoom at 1. unfold orm.get_pk, lift.
  destruct (orm.rows (vendors s) !! k) as [orig|] eqn:Row.
  - rewrite put_vendors_id.
    destruct (Bool.eqb (is_approved orig) (is_approved self));
      cbn [negb]; [reflexivity|].
    destruct (is_approved self) eqn:A; cbn [Bool.eqb];
      unfold zoom at 1; rewrite approval_mail_run;
      destruct (render_to_string mail_template (approval_context self));
      try (rewrite put_outbox_id; reflexivity);
      destruct (String.eqb (email (user self)) EmptyString);
      rewrite ?put_outbox_id; reflexivity.
  - rewrite put_vendors_id. reflexivity.
Qed.

(** The write at the end of [save] touches the table of the vendors only. *)
Lemma write_final (self : Vendor) (s : Store) :
  profiles (final (zoom vendors put_vendors
                     (orm.save vendor_pk with_vendor_pk self) s))
  = profiles s
  /\ opening_hours (final (zoom vendors put_vendors
                             (orm.save vendor_pk with_vendor_pk self) s))
     = opening_hours s
  /\ outbox (final (zoom vendors put_vendors
                      (orm.save vendor_pk with_vendor_pk self) s))
     = outbox s.
Proof.
  unfold zoom.
  destruct (orm.save vendor_pk with_vendor_pk self (vendors s));
    cbn; tauto.
Qed.

Lemma write_outbox (self : Vendor) (s : Store) :
  outbox (final (zoom vendors put_vendors
                   (orm.save vendor_pk with_vendor_pk self) s))
  = outbox s.
Proof. apply write_final. Qed.

(** A write that the database accepts returns: the vendor itself when it has
    a primary key. *)
Lemma write_accepted (self : Vendor) (s : Store) :
  orm.writable vendor_pk self (vendors s) ->
  exists saved s',
    zoom vendors put_vendors (orm.save vendor_pk with_vendor_pk self) s
    = Ok saved s'
    /\ (forall k, vendor_pk self = Some k -> saved = self).
Proof.
  intros [R F]. unfold zoom, orm.save. rewrite R.
  destruct (vendor_pk self) as [k|] eqn:Pk.
  - eexists _, _. split; [reflexivity|]. reflexivity.
  - rewrite (F eq_refl). eexists _, _. split; [reflexivity|]. discriminate.
Qed.


End notifications.

(** ** Context processors *)

Section lookups.
Context `{Floats} `{Django}.

Lemma get_none {A} (p : A -> bool) (t : orm.table A) :
  (forall a, In a (orm.all t) -> p a = false) ->
  orm.get p t = Raise DoesNotExist.
Proof.
  intros N. unfold orm.get.
  destruct (List.filter p (orm.all t)) as [|a l] eqn:E; [reflexivity|].
  assert (In a (List.filter p (orm.all t))) as I
    by (rewrite E; left; reflexivity).
  apply List.filter_In in I as [I T]. rewrite (N a I) in T. discriminate.
Qed.

Lemma get_vendor_run (request : HttpRequest) (s : Store) :
  get_vendor request s
  = Ok (<["vendor" := match get_by_user vendor_user request (vendors s) with
                      | Ret v => Some v
                      | Raise _ => None
                      end]> ∅) s.
Proof.
  unfold get_vendor, bind, try_except, lift, ret.
  destruct (get_by_user vendor_user request (vendors s)); reflexivity.
Qed.

Lemma get_user_profile_run (request : HttpRequest) (s : Store) :
  get_user_profile request s
  = Ok (<["user_profile" :=
            match get_by_user profile_user request (profiles s) with
            | Ret p => Some p
            | Raise _ => None
            end]> ∅) s.
Proof.
  unfold get_user_profile, bind, try_except, lift, ret.
  destruct (get_by_user profile_user request (profiles s)); reflexivity.
Qed.

(** C8: the two accessors never raise.  When the lookup for the current user
    fails, with whatever exception, the entry they return is [None]; so it
    is when the user is logged in and no stored vendor, or no stored
    profile, belongs to that user. *)
Theorem accessors_tolerate_absence (request : HttpRequest) (s : Store) :
  (exists v, get_vendor request s = Ok (<["vendor" := v]> ∅) s)
  /\ (exists p, get_user_profile request s = Ok (<["user_profile" := p]> ∅) s)
  /\ (forall e,
         get_by_user vendor_user request (vendors s) = Raise e ->
         get_vendor request s = Ok (<["vendor" := None]> ∅) s)
  /\ (forall e,
         get_by_user profile_user request (profiles s) = Raise e ->
         get_user_profile request s = Ok (<["user_profile" := None]> ∅) s)
  /\ (forall u,
         request_user_of request = LoggedIn u ->
         (forall v, In v (orm.all (vendors s)) ->
                    user_pk (user v) <> user_pk u) ->
         get_vendor request s = Ok (<["vendor" := None]> ∅) s)
  /\ (forall u,
         request_user_of request = LoggedIn u ->
         (forall p u', In p (orm.all (profiles s)) ->
                       profile_user p = Some u' -> user_pk u' <> user_pk u) ->
         get_user_profile request s = Ok (<["user_profile" := None]> ∅) s).
Proof.
  rewrite get_vendor_run, get_user_profile_run.
  split; [eauto|]. split; [eauto|]. split; [|split; [|split]].
  - intros e ->. reflexivity.
  - intros e ->. reflexivity.
  - intros u L N. unfold get_by_user. rewrite L, get_none; [reflexivity|].
    intros v I. unfold vendor_user. apply bool_decide_eq_false, N, I.
  - intros u L N. unfold get_by_user. rewrite L, get_none; [reflexivity|].
    intros p I. destruct (profile_user p) as [u'|] eqn:E; [|reflexivity].
    apply bool_decide_eq_false. eapply N; eassumption.
Qed.

End lookups.

(** ** The theorems at work on the sample data *)

Section witnesses.
#[local] Existing Instance samples.decimal_floats.
#[local] Existing Instance samples.sample_django.
#[local] Existing Instance samples_more.profile_database.
#[local] Existing Instance samples_more.vendor_database.

Lemma is_open_strict_window_witness :
  is_open samples.kitchen
    (mk_Clock samples.monday (mk_time 12 0 0 250000)) samples.store0
  = Ret (Some true).
Proof.
  apply (proj1 (is_open_strict_window)).
  - unfold valid_time. cbn. lia.
  - intros i [<-|[<-|[]]] _ _ _; eexists _, _; split; vm_compute;
      reflexivity.
  - exists samples.nine_to_five. split; [left; reflexivity|].
    split; [reflexivity|]. split; [reflexivity|]. split; [reflexivity|].
    eexists _, _. repeat split; vm_compute; reflexivity.
Defined.

Lemma is_open_undetermined_witness :
  is_open samples.kitchen
    (mk_Clock samples.monday (mk_time 12 0 0 0)) samples.store1
  = Ret None
  /\ is_open samples.kitchen
       (mk_Clock samples.monday (mk_time 12 0 0 0)) samples.store1
     <> Ret (Some false).
Proof.
  apply is_open_undetermined.
  intros i [<-|[<-|[]]] _ D; [reflexivity|].
  vm_compute in D. discriminate D.
Defined.

Lemma is_open_order_independent_witness :
  is_open_from "19:30:00" [samples.nine_to_five; samples.evening] None
  = is_open_from "19:30:00" [samples.evening; samples.nine_to_five] None.
Proof.
  apply (proj1 is_open_order_independent).
  - repeat constructor; intros _; eexists _, _; split; vm_compute;
      reflexivity.
  - apply perm_swap.
Defined.

Lemma string_order_is_whole_second_order_witness :
  exists t,
    strptime_I_M_p "09:00 AM" = Ret t
    /\ str_lt (time_str t) (strftime_H_M_S (mk_time 9 0 0 500000))
       = time_lt t (whole_seconds (mk_time 9 0 0 500000))
    /\ str_lt (strftime_H_M_S (mk_time 9 0 0 500000)) (time_str t)
       = time_lt (mk_time 9 0 0 500000) t
    /\ (microsecond (mk_time 9 0 0 500000) = 0 ->
        str_lt (time_str t) (strftime_H_M_S (mk_time 9 0 0 500000))
        = time_lt t (mk_time 9 0 0 500000)).
Proof.
  apply (string_order_is_whole_second_order "09:00 AM" (mk_time 9 0 0 500000)).
  - vm_compute. tauto.
  - unfold valid_time. cbn. lia.
Defined.

Lemma get_role_partial_witness :
  get_role samples.owner = Ret "Vendor"
  /\ get_role samples.admin = Raise UnboundLocalError.
Proof.
  split.
  - apply (proj1 (get_role_partial samples.owner)). reflexivity.
  - apply (proj2 (proj2 (get_role_partial samples.admin))); discriminate.
Defined.

Lemma detectUser_routes_witness :
  detectUser samples.owner = Some "vendorDashboard"
  /\ detectUser samples.admin = Some "/admin".
Proof.
  split.
  - apply (proj1 (detectUser_routes samples.owner)). reflexivity.
  - apply (proj1 (proj2 (proj2 (detectUser_routes samples.admin))));
      reflexivity.
Defined.

Lemma UserProfile_save_location_witness :
  exists saved t' k,
    UserProfile_save samples.home samples.empty_table
    = Ok saved t'
    /\ location saved = Some (mk_Point (388 # 5) (129 # 10))
    /\ latitude saved = Some "12.9" /\ longitude saved = Some "77.6"
    /\ profile_pk saved = Some k
    /\ orm.rows t' !! k = Some saved
    /\ ("12.9" = "12.9" -> "77.6" = "77.6" ->
        forall a b, samples.decimal "77.6" = Ret a ->
                    samples.decimal "12.9" = Ret b ->
                    location saved = Some (mk_Point a b)).
Proof.
  apply (proj2 (UserProfile_save_location samples.home
                  samples.empty_table "12.9" "77.6" (388 # 5)%Q (129 # 10)%Q
                  eq_refl ltac:(discriminate) eq_refl ltac:(discriminate)
                  eq_refl eq_refl)).
  split; [reflexivity|]. intros _. reflexivity.
Defined.



Lemma accessors_tolerate_absence_witness :
  get_vendor (mk_HttpRequest (LoggedIn samples.admin)) samples.store0
  = Ok (<["vendor" := None]> ∅) samples.store0.
Proof.
  apply (proj1 (proj2 (proj2 (proj2 (proj2
           (accessors_tolerate_absence
              (mk_HttpRequest (LoggedIn samples.admin)) samples.store0)))))
           samples.admin eq_refl).
  intros v I. vm_compute in I. destruct I as [<-|[]]. discriminate.
Defined.

End witnesses.

(** * Further properties of the code *)

Import hours.

(** ** Times of the day *)

Section time_order.

Lemma time_lt_spec (a b : time) :
  time_lt a b = true
  <-> hour a < hour b
      \/ (hour a = hour b
          /\ (minute a < minute b
              \/ (minute a = minute b
                  /\ (second a < second b
                      \/ (second a = second b
                          /\ microsecond a < microsecond b))))).
Proof.
  unfold time_lt, time_compare.
  destruct (N.compare_spec (hour a) (hour b));
    destruct (N.compare_spec (minute a) (minute b));
    destruct (N.compare_spec (second a) (second b));
    destruct (N.compare_spec (microsecond a) (microsecond b));
    split; try discriminate; try lia; intros _; reflexivity.
Qed.

Lemma In_range (a b x : N) : a <= x < b -> In x (range a b).
Proof.
  intros B. unfold range. apply List.in_map_iff.
  exists (N.to_nat (x - a)). split; [lia|].
  apply List.in_seq. lia.
Qed.

Lemma strftime_strptime_table :
  forallb
    (fun h =>
       forallb
         (fun m =>
            match strptime_I_M_p (strftime_I_M_p (mk_time h m 0 0)) with
            | Ret t => bool_decide (t = mk_time h m 0 0)
            | Raise _ => false
            end)
         (range 0 60))
    (range 0 24) = true.
Proof. vm_compute. reflexivity. Qed.

(** X1: a time of the day printed with ['%I:%M %p'], as the choices of
    [HOUR_OF_DAY_24] are, is read back by [strptime] with ["%I:%M %p"], as
    [is_open] does, to the same hour and minute, with no seconds. *)
Theorem strptime_strftime_round_trip (t : time) :
  hour t < 24 -> minute t < 60 ->
  strptime_I_M_p (strftime_I_M_p t) = Ret (mk_time (hour t) (minute t) 0 0).
Proof.
  intros Hh Hm.
  pose proof strftime_strptime_table as T.
  rewrite forallb_forall in T.
  specialize (T (hour t) (In_range 0 24 (hour t) ltac:(lia))).
  rewrite forallb_forall in T.
  specialize (T (minute t) (In_range 0 60 (minute t) ltac:(lia))).
  change (strftime_I_M_p t)
    with (strftime_I_M_p (mk_time (hour t) (minute t) 0 0)).
  destruct (strptime_I_M_p _) as [t'|]; [|discriminate].
  apply bool_decide_eq_true in T. rewrite T. reflexivity.
Qed.

(** X2: the day number that [is_open] filters on is always one of the seven
    choices of [DAYS], between 1 (Monday) and 7 (Sunday). *)
Theorem isoweekday_in_DAYS (d : date) :
  (1 <= isoweekday d <= 7)%Z
  /\ exists name, In (isoweekday d, name) DAYS.
Proof.
  unfold isoweekday.
  pose proof (Z.mod_pos_bound (toordinal d) 7 ltac:(lia)) as B.
  generalize dependent (toordinal d mod 7)%Z. intros r B.
  destruct (Z.eqb_spec r 0) as [->|N].
  - split; [lia|]. exists "Sunday". cbn. tauto.
  - split; [lia|].
    assert (r = 1 \/ r = 2 \/ r = 3 \/ r = 4 \/ r = 5 \/ r = 6)%Z
      as [->|[->|[->|[->|[->| ->]]]]] by lia;
      eexists; cbn; eauto 10.
Qed.

End time_order.

(** ** More about the loop of [is_open] *)

Section loop_more.

Lemma strptime_raises (s : string) (e : exn) :
  strptime_I_M_p s = Raise e -> e = ValueError.
Proof.
  unfold strptime_I_M_p.
  destruct (match_I s) as [[h s1]|]; [|congruence].
  destruct (match_colon s1) as [s2|]; [|congruence].
  destruct (match_M s2) as [[m s3]|]; [|congruence].
  destruct (match_spaces s3) as [s4|]; [|congruence].
  destruct (match_p s4) as [pm|]; [discriminate|congruence].
Qed.

Lemma malformed_not_open_at (current_time : string) (i : OpeningHour) :
  malformed i -> open_at current_time i = false.
Proof.
  intros [C [[e E]|[e E]]]; unfold open_at; rewrite C, E; cbn.
  - reflexivity.
  - destruct (strptime_I_M_p (from_hour i)); reflexivity.
Qed.

Lemma is_open_from_true (current_time : string) (rows : list OpeningHour) :
  forall acc,
    is_open_from current_time rows acc = Ret (Some true) ->
    acc = Some true \/ exists i, In i rows /\ open_at current_time i = true.
Proof.
  induction rows as [|a rows IH]; intros acc; cbn [is_open_from].
  - intros [= ->]. left. reflexivity.
  - destruct (is_closed a) eqn:C; cbn [negb].
    + intros E. apply IH in E as [E|(i & I & O)]; [left; exact E|].
      right. exists i. split; [right; exact I|exact O].
    + destruct (strptime_I_M_p (from_hour a)) as [t1|] eqn:E1;
        [|discriminate].
      destruct (strptime_I_M_p (to_hour a)) as [t2|] eqn:E2; [|discriminate].
      destruct (str_lt (time_str t1) current_time
                && str_lt current_time (time_str t2)) eqn:T.
      * intros _. right. exists a. split; [left; reflexivity|].
        unfold open_at. rewrite C, E1, E2. exact T.
      * intros E. apply IH in E as [E|(i & I & O)]; [discriminate E|].
        right. exists i. split; [right; exact I|exact O].
Qed.

Lemma is_open_from_malformed (current_time : string)
    (rows : list OpeningHour) :
  (exists i, In i rows /\ malformed i) ->
  (forall i, In i rows -> open_at current_time i = false) ->
  forall acc, is_open_from current_time rows acc = Raise ValueError.
Proof.
  induction rows as [|a rows IH]; intros (i & I & B) N acc;
    [destruct I|].
  cbn [is_open_from].
  assert (forall j, In j rows -> open_at current_time j = false) as N'
    by (intros j J; apply N; right; exact J).
  destruct (is_closed a) eqn:C; cbn [negb].
  - apply IH; [|exact N']. exists i. split; [|exact B].
    destruct I as [<-|I]; [|exact I].
    destruct B as [C' _]. congruence.
  - destruct (strptime_I_M_p (from_hour a)) as [t1|e1] eqn:E1;
      [|f_equal; eapply strptime_raises; eassumption].
    destruct (strptime_I_M_p (to_hour a)) as [t2|e2] eqn:E2;
      [|f_equal; eapply strptime_raises; eassumption].
    pose proof (N a (or_introl eq_refl)) as O.
    unfold open_at in O. rewrite C, E1, E2 in O. cbn [negb andb] in O.
    rewrite O. apply IH; [|exact N'].
    exists i. split; [|exact B].
    destruct I as [<-|I]; [|exact I].
    destruct B as [_ [[e E]|[e E]]]; congruence.
Qed.

Lemma slots_latest :
  forallb
    (fun s => match strptime_I_M_p s with
              | Ret t => (hour t <? 23) || ((hour t =? 23) && (minute t <=? 30))
              | Raise _ => false
              end)
    (map fst HOUR_OF_DAY_24) = true.
Proof. vm_compute. reflexivity. Qed.

Lemma uses_slots_well_formed (i : OpeningHour) :
  uses_slots i -> well_formed i.
Proof.
  intros [F T] _.
  destruct (slots_parse _ F) as [t1 E1].
  destruct (slots_parse _ T) as [t2 E2]. eauto.
Qed.

End loop_more.

(** ** More about [is_open] *)

Section availability_more.
Context `{Floats}.

(** X3: the loop never looks at the hours of a closed row: its result on
    any rows is its result on the rows that are not closed, so a closed row
    with hours that do not parse cannot make it raise. *)
Theorem is_open_skips_closed_rows (current_time : string)
    (rows : list OpeningHour) (acc : option bool) :
  is_open_from current_time rows acc
  = is_open_from current_time (open_rows rows) acc.
Proof.
  revert acc. induction rows as [|a rows IH]; intros acc; [reflexivity|].
  unfold open_rows. cbn [List.filter is_open_from].
  destruct (is_closed a) eqn:C; cbn [negb].
  - apply IH.
  - cbn [is_open_from]. rewrite C. cbn [negb].
    destruct (strptime_I_M_p (from_hour a)); [|reflexivity].
    destruct (strptime_I_M_p (to_hour a)); [|reflexivity].
    destruct (_ && _); [reflexivity|apply IH].
Qed.

(** X4: when the open rows of the vendor for the day take their hours from
    [HOUR_OF_DAY_24], [is_open] returns and does not raise. *)
Theorem is_open_returns_on_slots (self : Vendor) (clock : Clock)
    (s : Store) :
  (forall i,
      In i (opening_hours s) ->
      read_by self (isoweekday (today clock)) i ->
      is_closed i = false -> uses_slots i) ->
  exists answer, is_open self clock s = Ret answer.
Proof.
  intros U. eexists. apply is_open_verdict.
  intros i I V D C. apply uses_slots_well_formed; [|exact C].
  apply U; [exact I|split; assumption|exact C].
Qed.

(** X5: an open row of the vendor for the day with an hour that [strptime]
    rejects, the empty string that [blank=True] admits among them, makes
    [is_open] raise [ValueError] whenever no row of the vendor for the day
    is open at the current time; the hours of these rows being written in
    ASCII. *)
Theorem is_open_raises_on_malformed (self : Vendor) (clock : Clock)
    (s : Store) (bad : OpeningHour) :
  In bad (opening_hours s) ->
  read_by self (isoweekday (today clock)) bad ->
  malformed bad ->
  (forall i,
      In i (opening_hours s) ->
      read_by self (isoweekday (today clock)) i ->
      plain i /\ open_at (strftime_H_M_S (now clock)) i = false) ->
  is_open self clock s = Raise ValueError
  /\ strptime_I_M_p EmptyString = Raise ValueError.
Proof.
  intros I [V D] B N. split; [|reflexivity].
  unfold is_open. apply is_open_from_malformed.
  - exists bad. split; [|exact B].
    apply current_opening_hours_In. tauto.
  - intros i J. apply current_opening_hours_In in J as (J & V' & D').
    apply N; [exact J|split; assumption].
Qed.

(** X6: with a row that does not parse the order of the rows does matter:
    a row that is open now answers OPEN when it is met first, and the same
    two rows raise [ValueError] when the malformed one is met first; the
    hours of the two rows being written in ASCII. *)
Theorem is_open_order_matters_when_malformed (current_time : string)
    (good bad : OpeningHour) (rest : list OpeningHour) (acc : option bool) :
  plain good -> plain bad ->
  open_at current_time good = true ->
  malformed bad ->
  is_open_from current_time (good :: bad :: rest) acc = Ret (Some true)
  /\ is_open_from current_time (bad :: good :: rest) acc = Raise ValueError.
Proof.
  intros _ _ G [C B]. split.
  - unfold open_at in G. apply andb_true_iff in G as [Cg T].
    cbn [is_open_from]. rewrite Cg.
    destruct (strptime_I_M_p (from_hour good)); [|discriminate].
    destruct (strptime_I_M_p (to_hour good)); [|discriminate].
    rewrite T. reflexivity.
  - cbn [is_open_from]. rewrite C. cbn [negb].
    destruct B as [[e E]|[e E]].
    + rewrite E. f_equal. eapply strptime_raises, E.
    + rewrite E.
      destruct (strptime_I_M_p (from_hour bad)) as [t|e'] eqn:E';
        f_equal; eapply strptime_raises; eassumption.
Qed.

(** X7: the rows of other vendors and of other days have no part in the
    answer: rows that [is_open] does not read for the vendor and the day can
    be put before or after the table without changing it. *)
Theorem is_open_ignores_other_rows (self : Vendor) (clock : Clock)
    (s : Store) (others : list OpeningHour) :
  (forall i, In i others ->
             ~ read_by self (isoweekday (today clock)) i) ->
  is_open self clock
    (with_opening_hours (opening_hours s ++ others)%list s)
  = is_open self clock s
  /\ is_open self clock
       (with_opening_hours (others ++ opening_hours s)%list s)
     = is_open self clock s.
Proof.
  intros N.
  assert (List.filter
            (fun i => bool_decide (Some (vendor_id i) = vendor_pk self)
                      && (day i =? isoweekday (today clock))%Z)
            others = []) as E.
  { induction others as [|a l IH]; [reflexivity|].
    cbn [List.filter].
    destruct (bool_decide _ && _) eqn:T.
    - exfalso. apply (N a (or_introl eq_refl)).
      apply andb_true_iff in T as [V D].
      apply bool_decide_eq_true in V. apply Z.eqb_eq in D.
      split; assumption.
    - apply IH. intros i I. apply N. right. exact I. }
  unfold is_open, current_opening_hours, with_opening_hours.
  cbn [opening_hours]. rewrite !List.filter_app, E, List.app_nil_r.
  split; reflexivity.
Qed.

End availability_more.

Section availability_limits.
Context `{Floats}.

Lemma is_open_true_window (self : Vendor) (clock : Clock) (s : Store) :
  valid_time (now clock) ->
  is_open self clock s = Ret (Some true) ->
  exists i t1 t2,
    In i (opening_hours s)
    /\ read_by self (isoweekday (today clock)) i
    /\ is_closed i = false
    /\ strptime_I_M_p (from_hour i) = Ret t1
    /\ strptime_I_M_p (to_hour i) = Ret t2
    /\ time_lt t1 (whole_seconds (now clock)) = true
    /\ time_lt (whole_seconds (now clock)) t2 = true.
Proof.
  intros V E. unfold is_open in E.
  apply is_open_from_true in E as [E|(i & I & O)]; [discriminate E|].
  apply current_opening_hours_In in I as (I & Vi & Di).
  apply open_at_window in O as [C (t1 & t2 & E1 & E2 & L1 & L2)];
    [|exact V].
  exists i, t1, t2. unfold read_by. tauto.
Qed.

(** X8: a window whose closing hour is not after its opening hour, one that
    runs over midnight or an empty one, is never open: when every row of the
    vendor for the day has its hours written in ASCII and, where both of
    them parse, is of that kind, [is_open] does not answer OPEN at any
    time. *)
Theorem is_open_never_for_inverted_windows (self : Vendor) (clock : Clock)
    (s : Store) :
  valid_time (now clock) ->
  (forall i,
      In i (opening_hours s) ->
      read_by self (isoweekday (today clock)) i ->
      plain i) ->
  (forall i t1 t2,
      In i (opening_hours s) ->
      read_by self (isoweekday (today clock)) i ->
      strptime_I_M_p (from_hour i) = Ret t1 ->
      strptime_I_M_p (to_hour i) = Ret t2 ->
      time_lt t1 t2 = false) ->
  is_open self clock s <> Ret (Some true).
Proof.
  intros V _ Inv E.
  apply is_open_true_window in E
    as (i & t1 & t2 & I & R & _ & E1 & E2 & L1 & L2); [|exact V].
  specialize (Inv i t1 t2 I R E1 E2).
  apply time_lt_spec in L1, L2.
  assert (time_lt t1 t2 = true) as L by (apply time_lt_spec; lia).
  congruence.
Qed.

(** X9: whatever the rows are, [is_open] does not answer OPEN during the
    first second of the day nor from 23:59:00 on; and when the open rows of
    the vendor for the day take their hours from [HOUR_OF_DAY_24], whose
    last choice is 11:30 PM, it does not answer OPEN from 23:30:00 on. *)
Theorem is_open_never_around_midnight (self : Vendor) (clock : Clock)
    (s : Store) :
  valid_time (now clock) ->
  ((hour (now clock) = 0 /\ minute (now clock) = 0
    /\ second (now clock) = 0)
   \/ (hour (now clock) = 23 /\ minute (now clock) = 59) ->
   is_open self clock s <> Ret (Some true))
  /\ ((forall i,
          In i (opening_hours s) ->
          read_by self (isoweekday (today clock)) i ->
          is_closed i = false -> uses_slots i) ->
      hour (now clock) = 23 -> 30 <= minute (now clock) ->
      is_open self clock s <> Ret (Some true)).
Proof.
  intros V. split.
  - intros T E.
    apply is_open_true_window in E
      as (i & t1 & t2 & I & R & _ & E1 & E2 & L1 & L2); [|exact V].
    destruct (strptime_whole _ _ E2) as ((H2 & M2 & _) & S2 & U2).
    apply time_lt_spec in L1, L2. unfold whole_seconds in L1, L2.
    cbn [hour minute second microsecond] in L1, L2. lia.
  - intros U H23 M30 E.
    apply is_open_true_window in E
      as (i & t1 & t2 & I & R & C & E1 & E2 & L1 & L2); [|exact V].
    destruct (U i I R C) as [_ T].
    pose proof slots_latest as A. rewrite forallb_forall in A.
    specialize (A _ T). rewrite E2 in A.
    destruct (strptime_whole _ _ E2) as (_ & S2 & U2).
    apply time_lt_spec in L2. unfold whole_seconds in L2.
    cbn [hour minute second microsecond] in L2.
    rewrite orb_true_iff, andb_true_iff, N.ltb_lt, N.eqb_eq, N.leb_le in A.
    lia.
Qed.

End availability_limits.

(** ** More about [Vendor.save] *)

Section save_more.
Context `{Floats} `{Django} `{orm.Database Vendor}.

(** X10: saving a vendor whose primary key has no stored row raises
    [DoesNotExist] before anything is sent or written. *)
Theorem save_missing_row (self : Vendor) (s : Store) (k : Z) :
  vendor_pk self = Some k ->
  orm.rows (vendors s) !! k = None ->
  save self s = Err DoesNotExist s.
Proof. intros Pk Row. rewrite save_run, Pk, Row. reflexivity. Qed.

(** X11: when the approval flag has changed and the template fails to
    render, the exception leaves [save]: no mail is handed over and the
    stored row keeps the old flag. *)
Theorem save_aborts_when_mail_fails (self orig : Vendor) (s : Store)
    (k : Z) (e : exn) :
  vendor_pk self = Some k ->
  orm.rows (vendors s) !! k = Some orig ->
  is_approved orig <> is_approved self ->
  render_to_string mail_template (approval_context self) = Raise e ->
  save self s = Err e s
  /\ orm.rows (vendors s) !! k = Some orig.
Proof.
  intros Pk Row Ne R. split; [|exact Row].
  rewrite save_run, Pk, Row, R.
  assert (Bool.eqb (is_approved orig) (is_approved self) = false) as ->
    by (apply Bool.eqb_false_iff, Ne).
  reflexivity.
Qed.

Lemma is_open_reads_opening_hours (v : Vendor) (clock : Clock)
    (s s' : Store) :
  opening_hours s' = opening_hours s ->
  is_open v clock s' = is_open v clock s.
Proof. intros E. unfold is_open. rewrite E. reflexivity. Qed.

(** What the write at the end of [save] does to a store [s0] that differs
    from [s] in the mail handed over at most. *)
Lemma write_effects (self : Vendor) (s s0 : Store)
    (r : result Store Vendor) :
  r = zoom vendors put_vendors (orm.save vendor_pk with_vendor_pk self) s0 ->
  profiles s0 = profiles s ->
  opening_hours s0 = opening_hours s ->
  vendors s0 = vendors s ->
  (outbox s0 = outbox s
   \/ exists mail, outbox s0 = (outbox s ++ [mail])%list) ->
  profiles (final r) = profiles s
  /\ opening_hours (final r) = opening_hours s
  /\ (outbox (final r) = outbox s
      \/ exists mail, outbox (final r) = (outbox s ++ [mail])%list)
  /\ (forall e s', r = Err e s' -> vendors s' = vendors s)
  /\ (forall saved s',
         r = Ok saved s' ->
         exists k,
           vendor_pk saved = Some k
           /\ orm.rows (vendors s') !! k = Some saved
           /\ (saved = self \/ saved = with_vendor_pk k self)
           /\ forall k', k' <> k ->
                orm.rows (vendors s') !! k' = orm.rows (vendors s) !! k').
Proof.
  intros -> P O V B.
  destruct (write_final self s0) as (P' & O' & B').
  rewrite P', O', B'. repeat split; try assumption.
  - unfold zoom. intros e s'.
    destruct (orm.save vendor_pk with_vendor_pk self (vendors s0))
      as [a t|e' t] eqn:E; [discriminate|].
    intros [= <- <-]. apply orm_save_Err in E. rewrite E. cbn. exact V.
  - unfold zoom. intros saved s'.
    destruct (orm.save vendor_pk with_vendor_pk self (vendors s0))
      as [a t|e' t] eqn:E; [|discriminate].
    intros [= <- <-].
    destruct (orm_save_Ok vendor_pk with_vendor_pk _ _ _ _
                (fun _ _ => eq_refl) E) as (k & Pk & Row & Rest & How).
    exists k. cbn. rewrite <- V. repeat split; auto.
    destruct How as [(_ & -> & _)|(_ & -> & -> & _)]; auto.
Qed.

Lemma save_effects (self : Vendor) (s : Store) :
  profiles (final (save self s)) = profiles s
  /\ opening_hours (final (save self s)) = opening_hours s
  /\ (outbox (final (save self s)) = outbox s
      \/ exists mail,
           outbox (final (save self s)) = (outbox s ++ [mail])%list)
  /\ (forall e s', save self s = Err e s' -> vendors s' = vendors s)
  /\ (forall saved s',
         save self s = Ok saved s' ->
         exists k,
           vendor_pk saved = Some k
           /\ orm.rows (vendors s') !! k = Some saved
           /\ (saved = self \/ saved = with_vendor_pk k self)
           /\ forall k', k' <> k ->
                orm.rows (vendors s') !! k' = orm.rows (vendors s) !! k').
Proof.
  assert (forall e : exn,
             profiles (final (Err e s : result Store Vendor)) = profiles s
             /\ opening_hours (final (Err e s : result Store Vendor))
                = opening_hours s
             /\ (outbox (final (Err e s : result Store Vendor)) = outbox s
                 \/ exists mail,
                      outbox (final (Err e s : result Store Vendor))
                      = (outbox s ++ [mail])%list)
             /\ (forall e' s', (Err e s : result Store Vendor) = Err e' s' ->
                               vendors s' = vendors s)
             /\ (forall saved s',
                    (Err e s : result Store Vendor) = Ok saved s' ->
                    exists k,
                      vendor_pk saved = Some k
                      /\ orm.rows (vendors s') !! k = Some saved
                      /\ (saved = self \/ saved = with_vendor_pk k self)
                      /\ forall k', k' <> k ->
                           orm.rows (vendors s') !! k'
                           = orm.rows (vendors s) !! k')) as Raised.
  { intros e. cbn. repeat split; auto; [congruence|discriminate]. }
  rewrite save_run.
  destruct (vendor_pk self) as [k|].
  - destruct (orm.rows (vendors s) !! k) as [orig|]; [|apply Raised].
    destruct (Bool.eqb _ _).
    + apply (write_effects self s s _ eq_refl); auto.
    + destruct (render_to_string _ _) as [body|e]; [|apply Raised].
      destruct (String.eqb _ _).
      * apply (write_effects self s s _ eq_refl); auto.
      * apply (write_effects self s _ _ eq_refl); cbn; eauto.
  - apply (write_effects self s s _ eq_refl); auto.
Qed.


(** X13: saving a vendor that equals its stored row hands no mail over; so
    saving again what a successful [save] returned is silent, whatever the
    first [save] sent. *)
Theorem save_again_is_silent (self : Vendor) (s : Store) :
  (forall k,
      vendor_pk self = Some k ->
      orm.rows (vendors s) !! k = Some self ->
      outbox (final (save self s)) = outbox s)
  /\ (forall saved s',
         save self s = Ok saved s' ->
         outbox (final (save saved s')) = outbox s').
Proof.
  assert (forall v st k,
             vendor_pk v = Some k ->
             orm.rows (vendors st) !! k = Some v ->
             outbox (final (save v st)) = outbox st) as Fix.
  { intros v st k Pk Row. rewrite save_run, Pk, Row, Bool.eqb_reflx.
    apply write_outbox. }
  split; [intros k; apply Fix|].
  intros saved s' E.
  destruct (save_effects self s) as (_ & _ & _ & _ & K).
  destruct (K saved s' E) as (k & Pk & Row & _).
  exact (Fix saved s' k Pk Row).
Qed.

End save_more.

(** ** More about [UserProfile.save] *)

Section location_more.
Context `{Floats} `{orm.Database UserProfile}.

(** X14: when the latitude or the longitude is missing or empty, [save]
    writes the profile without touching its location and without calling
    [float]: whenever it returns, the profile it returns is stored and has
    the location and the coordinates it came with, so a point set earlier
    stays; when it raises, the table is as it was; and it returns when the
    database accepts the row. *)
Theorem UserProfile_save_keeps_location (self : UserProfile)
    (t : orm.table UserProfile) :
  truthy (latitude self) = false \/ truthy (longitude self) = false ->
  (forall saved t',
      UserProfile_save self t = Ok saved t' ->
      location saved = location self
      /\ latitude saved = latitude self
      /\ longitude saved = longitude self
      /\ exists k, profile_pk saved = Some k
                   /\ orm.rows t' !! k = Some saved)
  /\ (forall e t', UserProfile_save self t = Err e t' -> t' = t)
  /\ (orm.writable profile_pk self t ->
      exists saved t', UserProfile_save self t = Ok saved t').
Proof.
  intros F. unfold UserProfile_save.
  assert (truthy (latitude self) && truthy (longitude self) = false) as ->
    by (destruct F as [-> | ->]; [reflexivity|apply andb_false_r]).
  split; [|split].
  - intros saved t'. apply saved_profile_fields.
  - intros e t'. apply orm_save_Err.
  - apply orm_save_writable.
Qed.

(** X15: when both coordinates are present and [float] rejects one, [save]
    raises that exception and stores nothing; the longitude is read first,
    so its exception is the one raised. *)
Theorem UserProfile_save_bad_coordinate (self : UserProfile)
    (t : orm.table UserProfile) (lat lon : string) (e : exn) :
  latitude self = Some lat -> lat <> EmptyString ->
  longitude self = Some lon -> lon <> EmptyString ->
  (py_float lon = Raise e -> UserProfile_save self t = Err e t)
  /\ (forall fx, py_float lon = Ret fx -> py_float lat = Raise e ->
                 UserProfile_save self t = Err e t).
Proof.
  intros Elat Nlat Elon Nlon. unfold UserProfile_save.
  rewrite Elat, Elon, !truthy_Some by assumption. cbn [andb].
  unfold bind, lift, float_field. split.
  - intros ->. reflexivity.
  - intros fx -> ->. reflexivity.
Qed.

End location_more.

(** ** More about the notification dispatcher and the roles *)

Section dispatcher_more.
Context `{Django}.


(** X18: [get_role] and [detectUser] agree on who has a role: [get_role]
    returns ['Vendor'] exactly for the users that [detectUser] sends to the
    vendor dashboard and ['Customer'] exactly for those it sends to the
    customer dashboard, it returns nothing else, and it raises exactly for
    the users sent to the admin route or to no route. *)
Theorem get_role_agrees_with_detectUser (u : User) :
  (get_role u = Ret "Vendor" <-> detectUser u = Some "vendorDashboard")
  /\ (get_role u = Ret "Customer" <-> detectUser u = Some "custDashboard")
  /\ (forall r, get_role u = Ret r -> r = "Vendor" \/ r = "Customer")
  /\ (get_role u = Raise UnboundLocalError
      <-> detectUser u = Some "/admin" \/ detectUser u = None).
Proof.
  unfold get_role, detectUser.
  destruct (role_eq (role u) 1); [|destruct (role_eq (role u) 2)].
  - repeat split; try discriminate; try (intros _; reflexivity);
      try (intros r [= <-]; tauto); intros [E|E]; discriminate E.
  - repeat split; try discriminate; try (intros _; reflexivity);
      try (intros r [= <-]; tauto); intros [E|E]; discriminate E.
  - destruct (bool_decide (role u = None) && is_superadmin u);
      repeat split; try discriminate; try (intros _; reflexivity);
      intros _; tauto.
Qed.

End dispatcher_more.

(** ** More about the lookups of the context processors *)

Section lookups_more.
Context `{Floats}.

Lemma all_with_row {A} (t : orm.table A) (k : Z) (a : A) :
  orm.rows t !! k = Some a ->
  Permutation (orm.all t)
    (a :: (snd <$> map_to_list (delete k (orm.rows t)))).
Proof.
  intros Row. unfold orm.all.
  rewrite <- (insert_id _ _ _ Row) at 1.
  rewrite <- insert_delete_eq.
  rewrite map_to_list_insert by apply lookup_delete_eq.
  reflexivity.
Qed.

Lemma In_all_delete {A} (t : orm.table A) (k : Z) (a : A) :
  In a (snd <$> map_to_list (delete k (orm.rows t))) ->
  exists k', k' <> k /\ orm.rows t !! k' = Some a.
Proof.
  intros I. apply list_elem_of_In, list_elem_of_fmap in I
    as ([k' a'] & -> & I).
  apply elem_of_map_to_list in I.
  destruct (decide (k' = k)) as [->|N].
  - rewrite lookup_delete_eq in I. discriminate.
  - rewrite lookup_delete_ne in I by congruence. eauto.
Qed.

Lemma filter_none {A} (p : A -> bool) (l : list A) :
  (forall a, In a l -> p a = false) -> List.filter p l = [].
Proof.
  induction l as [|a l IH]; intros N; [reflexivity|].
  cbn [List.filter]. rewrite (N a (or_introl eq_refl)).
  apply IH. intros b I. apply N. right. exact I.
Qed.

(** [get] returns the only row that satisfies the condition. *)
Lemma get_unique {A} (p : A -> bool) (t : orm.table A) (k : Z) (a : A) :
  orm.rows t !! k = Some a ->
  p a = true ->
  (forall k' a', k' <> k -> orm.rows t !! k' = Some a' -> p a' = false) ->
  orm.get p t = Ret a.
Proof.
  intros Row P U. unfold orm.get.
  pose proof (filter_Permutation_list p _ _ (all_with_row t k a Row)) as Q.
  cbn [List.filter] in Q. rewrite P in Q.
  rewrite (filter_none p (snd <$> map_to_list (delete k (orm.rows t))))
    in Q.
  - apply Permutation_sym, Permutation_length_1_inv in Q. rewrite Q.
    reflexivity.
  - intros b I. apply In_all_delete in I as (k' & N & R). eauto.
Qed.

End lookups_more.

Section accessors_more.
Context `{Floats} `{Django} `{orm.Database Vendor}.

Lemma accessors_find_the_row_aux (request : HttpRequest) (s : Store)
    (u : User) :
  request_user_of request = LoggedIn u ->
  (forall k v,
      orm.rows (vendors s) !! k = Some v ->
      user_pk (user v) = user_pk u ->
      (forall k' v', k' <> k -> orm.rows (vendors s) !! k' = Some v' ->
                     user_pk (user v') <> user_pk u) ->
      get_vendor request s = Ok (<["vendor" := Some v]> ∅) s)
  /\ (forall k p,
         orm.rows (profiles s) !! k = Some p ->
         (exists u', profile_user p = Some u' /\ user_pk u' = user_pk u) ->
         (forall k' p' u', k' <> k -> orm.rows (profiles s) !! k' = Some p' ->
                           profile_user p' = Some u' ->
                           user_pk u' <> user_pk u) ->
         get_user_profile request s
         = Ok (<["user_profile" := Some p]> ∅) s).
Proof.
  intros L. split.
  - intros k v Row Own U. rewrite get_vendor_run. unfold get_by_user.
    rewrite L, (get_unique _ _ k v Row); [reflexivity| |].
    + apply bool_decide_eq_true. exact Own.
    + intros k' v' N R. apply bool_decide_eq_false. eauto.
  - intros k p Row (u' & Pu & Own) U. rewrite get_user_profile_run.
    unfold get_by_user.
    rewrite L, (get_unique _ _ k p Row); [reflexivity| |].
    + rewrite Pu. apply bool_decide_eq_true. exact Own.
    + intros k' p' N R. destruct (profile_user p') as [u''|] eqn:E;
        [|reflexivity].
      apply bool_decide_eq_false. eauto.
Qed.


(** X19: for a logged-in user with exactly one stored vendor, [get_vendor]
    returns that vendor; with exactly one stored profile,
    [get_user_profile] returns that profile. *)
Theorem accessors_find_the_row (request : HttpRequest) (s : Store)
    (u : User) :
  request_user_of request = LoggedIn u ->
  (forall k v,
      orm.rows (vendors s) !! k = Some v ->
      user_pk (user v) = user_pk u ->
      (forall k' v', k' <> k -> orm.rows (vendors s) !! k' = Some v' ->
                     user_pk (user v') <> user_pk u) ->
      get_vendor request s = Ok (<["vendor" := Some v]> ∅) s)
  /\ (forall k p,
         orm.rows (profiles s) !! k = Some p ->
         (exists u', profile_user p = Some u' /\ user_pk u' = user_pk u) ->
         (forall k' p' u', k' <> k -> orm.rows (profiles s) !! k' = Some p' ->
                           profile_user p' = Some u' ->
                           user_pk u' <> user_pk u) ->
         get_user_profile request s
         = Ok (<["user_profile" := Some p]> ∅) s).
Proof. apply accessors_find_the_row_aux. Qed.

(** X21: [get_vendor] finds what [Vendor.save] stored: after a successful
    [save] of a vendor, when no other stored row belongs to its user, the
    accessor returns the saved vendor for that user. *)
Theorem get_vendor_after_save (self saved : Vendor) (s s' : Store)
    (request : HttpRequest) :
  request_user_of request = LoggedIn (user self) ->
  save self s = Ok saved s' ->
  (forall k' v', orm.rows (vendors s) !! k' = Some v' ->
                 Some k' <> vendor_pk saved ->
                 user_pk (user v') <> user_pk (user self)) ->
  get_vendor request s' = Ok (<["vendor" := Some saved]> ∅) s'.
Proof.
  intros L E U.
  destruct (save_effects self s) as (_ & _ & _ & _ & K).
  destruct (K saved s' E) as (k & Pk & Row & How & Others).
  assert (user saved = user self) as Us
    by (destruct How as [-> | ->]; reflexivity).
  apply (proj1 (accessors_find_the_row_aux request s' (user self) L) k saved).
  - exact Row.
  - rewrite Us. reflexivity.
  - intros k' v' N R. rewrite Others in R by exact N.
    apply (U k' v' R). rewrite Pk. congruence.
Qed.

End accessors_more.
(** ** The user manager *)

Import accounts_managers.

Section manager_facts.
Context `{Auth} `{orm.Database Account}.

Lemma create_user_run (first_name last_name : string)
    (username email password : option string) (salt : string)
    (t : orm.table Account) :
  truthy email = true -> truthy username = true ->
  create_user first_name last_name username email password salt t
  = orm.save account_pk with_account_pk
      (set_password password salt
         (model (normalize_email email) (str_of username) first_name
            last_name)) t.
Proof.
  intros E U. unfold create_user. rewrite E, U. reflexivity.
Qed.

(** The first [save] of an object without a key. *)
Lemma orm_save_new {A} `{orm.Database A} (pk : A -> option Z)
    (with_pk : Z -> A -> A) (self a : A) (t t' : orm.table A) :
  pk self = None ->
  orm.save pk with_pk self t = Ok a t' ->
  a = with_pk (orm.next_pk t) self
  /\ orm.rows t !! orm.next_pk t = None
  /\ t' = orm.mk_table (<[orm.next_pk t := a]> (orm.rows t))
            (orm.next_pk t + 1)%Z.
Proof.
  intros Pk. unfold orm.save. rewrite Pk.
  destruct (orm.refused self t); [discriminate|].
  destruct (orm.rows t !! orm.next_pk t); [discriminate|].
  intros [= <- <-]. auto.
Qed.

(** A later [save] of an object with a key. *)
Lemma orm_save_old {A} `{orm.Database A} (pk : A -> option Z)
    (with_pk : Z -> A -> A) (self a : A) (t t' : orm.table A) (k : Z) :
  pk self = Some k ->
  orm.save pk with_pk self t = Ok a t' ->
  a = self
  /\ t' = orm.mk_table (<[k := self]> (orm.rows t)) (orm.next_pk t).
Proof.
  intros Pk. unfold orm.save. rewrite Pk.
  destruct (orm.refused self t); [discriminate|].
  intros [= <- <-]. auto.
Qed.

(** X22: [create_user] refuses a missing or empty email, and then a missing
    or empty username, with [ValueError], and stores nothing; the email is
    looked at first. *)
Theorem create_user_requires_email_and_username
    (first_name last_name : string)
    (username email password : option string) (salt : string)
    (t : orm.table Account) :
  (truthy email = false ->
   create_user first_name last_name username email password salt t
   = Err ValueError t)
  /\ (truthy email = true -> truthy username = false ->
      create_user first_name last_name username email password salt t
      = Err ValueError t).
Proof.
  unfold create_user. split.
  - intros ->. reflexivity.
  - intros -> ->. reflexivity.
Qed.

(** X23: a user that [create_user] returns is stored under the next key of
    the table, which was free, beside the rows that were there, with the
    normalized email; it is not active, has no role and no permission,
    [detectUser] gives it no route and [get_role] raises for it.  When
    [create_user] raises, the table is as it was.  It returns when the
    database accepts the row: that is, when no constraint refuses it and
    the next key is free. *)
Theorem create_user_makes_plain_inactive_user
    (first_name last_name : string)
    (username email password : option string) (salt : string)
    (t : orm.table Account) :
  truthy email = true -> truthy username = true ->
  (forall a t',
      create_user first_name last_name username email password salt t
      = Ok a t' ->
      account_pk a = Some (orm.next_pk t)
      /\ orm.rows t !! orm.next_pk t = None
      /\ orm.rows t' !! orm.next_pk t = Some a
      /\ (forall k, k <> orm.next_pk t -> orm.rows t' !! k = orm.rows t !! k)
      /\ orm.next_pk t' = (orm.next_pk t + 1)%Z
      /\ accounts_models.email (fields a) = normalize_email email
      /\ accounts_models.username (fields a) = str_of username
      /\ accounts_managers.password a = make_password password salt
      /\ is_active (fields a) = false
      /\ role (fields a) = None
      /\ (forall perm, has_perm (fields a) perm = false)
      /\ accounts_utils.detectUser (fields a) = None
      /\ get_role (fields a) = Raise UnboundLocalError)
  /\ (forall e t',
         create_user first_name last_name username email password salt t
         = Err e t' ->
         t' = t)
  /\ (orm.writable account_pk
        (set_password password salt
           (model (normalize_email email) (str_of username) first_name
              last_name)) t ->
      exists a t',
        create_user first_name last_name username email password salt t
        = Ok a t').
Proof.
  intros E U. rewrite (create_user_run _ _ _ _ _ _ _ E U).
  split; [|split].
  - intros a t' S.
    apply orm_save_new in S as (-> & Free & ->); [|reflexivity].
    cbn [orm.rows orm.next_pk].
    split; [reflexivity|]. split; [exact Free|].
    split; [apply lookup_insert_eq|].
    split; [intros k N; apply lookup_insert_ne; congruence|].
    repeat split.
  - intros e t'. apply orm_save_Err.
  - apply orm_save_writable.
Qed.

(** X24: [create_superuser] refuses an email that normalizes to the empty
    string.  Otherwise a user that it returns is the one row it has added,
    under the next key of the table, which was free, although it saves
    twice: a user with the four flags set, whom [detectUser] sends to the
    admin route, who has every permission, and for whom [get_role] raises.
    It returns when the database accepts both writes. *)
Theorem create_superuser_makes_admin (first_name last_name : string)
    (username email password : option string) (salt : string)
    (t : orm.table Account) :
  (normalize_email email = EmptyString ->
   create_superuser first_name last_name username email password salt t
   = Err ValueError t)
  /\ (normalize_email email <> EmptyString -> truthy username = true ->
      (forall a t',
          create_superuser first_name last_name username email password salt
            t
          = Ok a t' ->
          account_pk a = Some (orm.next_pk t)
          /\ orm.rows t !! orm.next_pk t = None
          /\ orm.rows t' !! orm.next_pk t = Some a
          /\ (forall k, k <> orm.next_pk t ->
                        orm.rows t' !! k = orm.rows t !! k)
          /\ orm.next_pk t' = (orm.next_pk t + 1)%Z
          /\ accounts_models.email (fields a)
             = normalize_email (Some (normalize_email email))
          /\ accounts_models.username (fields a) = str_of username
          /\ accounts_managers.password a = make_password password salt
          /\ is_admin (fields a) = true /\ is_active (fields a) = true
          /\ is_staff (fields a) = true /\ is_superadmin (fields a) = true
          /\ (forall perm, has_perm (fields a) perm = true)
          /\ accounts_utils.detectUser (fields a) = Some "/admin"
          /\ get_role (fields a) = Raise UnboundLocalError)
      /\ (orm.writable account_pk
            (set_password password salt
               (model (normalize_email (Some (normalize_email email)))
                  (str_of username) first_name last_name)) t ->
          (forall user t1,
              create_user first_name last_name username
                (Some (normalize_email email)) password salt t
              = Ok user t1 ->
              orm.refused (grant_all user) t1 = None) ->
          exists a t',
            create_superuser first_name last_name username email password
              salt t
            = Ok a t')).
Proof.
  unfold create_superuser, bind. split.
  - intros E. unfold create_user. rewrite E. reflexivity.
  - intros E U.
    rewrite (create_user_run _ _ _ _ _ _ _ (truthy_Some _ E) U). split.
    + intros a t'.
      destruct (orm.save account_pk with_account_pk _ t)
        as [user t1|] eqn:S1; [|discriminate].
      apply orm_save_new in S1 as (-> & Free & ->); [|reflexivity].
      intros S2.
      apply (orm_save_old _ _ _ _ _ _ (orm.next_pk t)) in S2
        as (-> & ->); [|reflexivity].
      cbn [orm.rows orm.next_pk].
      split; [reflexivity|]. split; [exact Free|].
      split; [apply lookup_insert_eq|].
      split.
      { intros k N. rewrite !lookup_insert_ne by congruence. reflexivity. }
      repeat split.
    + intros W Second.
      destruct (orm_save_writable _ with_account_pk _ _ W)
        as (user & t1 & S1).
      rewrite S1. specialize (Second user t1 S1).
      apply orm_save_new in S1 as (-> & _ & ->); [|reflexivity].
      unfold orm.save at 1. rewrite Second. eauto.
Qed.

End manager_facts.

(** ** The image validator *)

Import validators.

Section strings_more.

Lemma append_String (c : ascii) (a b : string) :
  String c a +:+ b = String c (a +:+ b).
Proof. reflexivity. Qed.

Lemma append_assoc (a b c : string) : (a +:+ b) +:+ c = a +:+ (b +:+ c).
Proof.
  induction a as [|x a IH]; [reflexivity|].
  rewrite !append_String, IH. reflexivity.
Qed.

Lemma length_append (a b : string) :
  String.length (a +:+ b) = (String.length a + String.length b)%nat.
Proof.
  induction a as [|x a IH]; [reflexivity|].
  rewrite append_String. cbn [String.length]. rewrite IH. reflexivity.
Qed.

Lemma occurs_append (c : ascii) (a b : string) :
  occurs c (a +:+ b) = occurs c a || occurs c b.
Proof.
  induction a as [|x a IH]; [reflexivity|].
  rewrite append_String. cbn [occurs]. rewrite IH. apply orb_assoc.
Qed.

Lemma only_dots_no_separator (s : string) :
  only_dots s = true -> occurs "/" s = false.
Proof.
  induction s as [|x s IH]; [reflexivity|]. cbn [only_dots occurs].
  intros [E D]%andb_true_iff. apply Ascii.eqb_eq in E. subst x.
  rewrite (IH D). reflexivity.
Qed.

Lemma rfind_from_app (c : ascii) (a b : string) :
  forall i found,
    rfind_from c (a +:+ b) i found
    = rfind_from c b (i + Z.of_nat (String.length a))%Z
        (rfind_from c a i found).
Proof.
  induction a as [|x a IH]; intros i found.
  - cbn [String.length rfind_from]. change (EmptyString +:+ b) with b.
    f_equal. lia.
  - rewrite append_String. cbn [rfind_from String.length]. rewrite IH.
    f_equal. lia.
Qed.

Lemma rfind_from_absent (c : ascii) (s : string) :
  occurs c s = false ->
  forall i found, rfind_from c s i found = found.
Proof.
  induction s as [|x s IH]; intros O i found; [reflexivity|].
  cbn [occurs] in O. apply orb_false_iff in O as [E O].
  cbn [rfind_from]. rewrite E. apply IH, O.
Qed.

Lemma rfind_from_bounds (c : ascii) (s : string) :
  forall i found,
    (found < i)%Z ->
    (found <= rfind_from c s i found < i + Z.of_nat (String.length s))%Z.
Proof.
  induction s as [|x s IH]; intros i found L; cbn [rfind_from String.length].
  - lia.
  - destruct (Ascii.eqb x c).
    + specialize (IH (i + 1)%Z i ltac:(lia)). lia.
    + specialize (IH (i + 1)%Z found ltac:(lia)). lia.
Qed.

Lemma substring_0_0 (s : string) : substring 0 0 s = EmptyString.
Proof. destruct s; reflexivity. Qed.

Lemma substring_prefix (a b : string) :
  substring 0 (String.length a) (a +:+ b) = a.
Proof.
  induction a as [|x a IH].
  - apply substring_0_0.
  - rewrite append_String. cbn [String.length substring]. rewrite IH.
    reflexivity.
Qed.

Lemma substring_all (s : string) : substring 0 (String.length s) s = s.
Proof.
  induction s as [|x s IH]; [reflexivity|].
  cbn [String.length substring]. rewrite IH. reflexivity.
Qed.

Lemma substring_suffix (a b : string) (n : nat) :
  n = String.length b ->
  substring (String.length a) n (a +:+ b) = b.
Proof.
  intros ->. induction a as [|x a IH].
  - apply substring_all.
  - rewrite append_String. cbn [String.length substring]. exact IH.
Qed.

Lemma substring_char (a r : string) (c : ascii) :
  substring (String.length a) 1 (a +:+ String c r) = String c EmptyString.
Proof.
  induction a as [|x a IH].
  - change (EmptyString +:+ String c r) with (String c r).
    cbn [String.length substring]. rewrite substring_0_0. reflexivity.
  - rewrite append_String. cbn [String.length substring]. exact IH.
Qed.

Lemma substring_join (p : string) :
  forall n,
    substring 0 n p +:+ substring n (String.length p - n) p = p.
Proof.
  induction p as [|x p IH]; intros [|n]; try reflexivity.
  - cbn [substring String.length Nat.sub].
    change (EmptyString +:+ ?s) with s. f_equal. apply substring_all.
  - cbn [substring String.length Nat.sub]. rewrite append_String, IH.
    reflexivity.
Qed.

End strings_more.

Section splitext_facts.

Lemma skip_leading_dots_stem (stem rest : string) :
  forall pre,
    skip_leading_dots (pre +:+ stem +:+ rest)
      (Z.of_nat (String.length pre))
      (Z.of_nat (String.length pre) + Z.of_nat (String.length stem))
      (String.length stem)
    = negb (only_dots stem).
Proof.
  induction stem as [|c stem IH]; intros pre; [reflexivity|].
  cbn [String.length skip_leading_dots only_dots].
  assert ((Z.of_nat (String.length pre)
           <? Z.of_nat (String.length pre)
              + Z.of_nat (S (String.length stem)))%Z = true) as ->
    by (apply Z.ltb_lt; lia).
  unfold slice.
  replace (Z.to_nat (Z.of_nat (String.length pre) + 1
                     - Z.of_nat (String.length pre))) with 1%nat by lia.
  rewrite Nat2Z.id, append_String, substring_char.
  cbn [String.eqb].
  destruct (Ascii.eqb c ".") eqn:E; cbn [negb andb]; [|reflexivity].
  specialize (IH (pre +:+ String c EmptyString)).
  rewrite length_append in IH. cbn [String.length] in IH.
  rewrite append_assoc in IH.
  change (String c EmptyString +:+ stem +:+ rest)
    with (String c (stem +:+ rest)) in IH.
  rewrite <- IH. f_equal; lia.
Qed.

Lemma rfind_separator (pre x : string) :
  directory_prefix pre ->
  occurs "/" x = false ->
  (rfind "/" (pre +:+ x) + 1 = Z.of_nat (String.length pre))%Z.
Proof.
  intros [->|[d ->]] O; unfold rfind.
  - change (EmptyString +:+ x) with x.
    rewrite rfind_from_absent by exact O. reflexivity.
  - rewrite append_assoc, rfind_from_app.
    change ("/" +:+ x) with (String "/" x). cbn [rfind_from].
    change (Ascii.eqb "/" "/") with true. cbv iota.
    rewrite rfind_from_absent by exact O.
    rewrite length_append. cbn [String.length]. lia.
Qed.

Lemma rfind_last_dot (a e : string) :
  occurs "." e = false ->
  rfind "." (a +:+ String "." e) = Z.of_nat (String.length a).
Proof.
  intros O. unfold rfind. rewrite rfind_from_app. cbn [rfind_from].
  change (Ascii.eqb "." ".") with true. cbv iota.
  rewrite rfind_from_absent by exact O. lia.
Qed.

(** [splitext] on a name made of a directory prefix, a stem and a last
    dot with what follows it. *)
Lemma splitext_shape (pre stem e : string) :
  directory_prefix pre ->
  occurs "/" stem = false ->
  occurs "." e = false ->
  occurs "/" e = false ->
  splitext (pre +:+ stem +:+ String "." e)
  = if only_dots stem then (pre +:+ stem +:+ String "." e, EmptyString)
    else (pre +:+ stem, String "." e).
Proof.
  intros D Os Oe Se. unfold splitext.
  assert (occurs "/" (stem +:+ String "." e) = false) as Ox.
  { rewrite occurs_append, Os. cbn [occurs orb].
    change (Ascii.eqb "." "/") with false. exact Se. }
  pose proof (rfind_separator pre _ D Ox) as Sep.
  assert (rfind "." (pre +:+ stem +:+ String "." e)
          = Z.of_nat (String.length pre)
            + Z.of_nat (String.length stem))%Z as Dot.
  { rewrite <- append_assoc, rfind_last_dot by exact Oe.
    rewrite length_append. lia. }
  rewrite Dot.
  assert ((rfind "/" (pre +:+ stem +:+ String "." e)
           <? Z.of_nat (String.length pre)
              + Z.of_nat (String.length stem))%Z = true) as ->
    by (apply Z.ltb_lt; lia).
  rewrite Sep.
  replace (Z.to_nat (Z.of_nat (String.length pre)
                     + Z.of_nat (String.length stem)
                     - Z.of_nat (String.length pre)))
    with (String.length stem) by lia.
  rewrite skip_leading_dots_stem.
  destruct (only_dots stem); cbn [negb].
  - unfold slice_to. rewrite substring_0_0. reflexivity.
  - unfold slice_to, slice_from.
    replace (Z.to_nat (Z.of_nat (String.length pre)
                       + Z.of_nat (String.length stem)))
      with (String.length (pre +:+ stem))
      by (rewrite length_append; lia).
    rewrite <- append_assoc.
    rewrite substring_prefix, substring_suffix; [reflexivity|].
    rewrite (length_append (pre +:+ stem)). lia.
Qed.

(** [splitext] on a name with no dot after the last separator. *)
Lemma splitext_no_dot (pre base : string) :
  directory_prefix pre ->
  occurs "/" base = false ->
  occurs "." base = false ->
  splitext (pre +:+ base) = (pre +:+ base, EmptyString).
Proof.
  intros D Sb Db. unfold splitext.
  pose proof (rfind_separator pre base D Sb) as Sep.
  assert (rfind "." (pre +:+ base) < Z.of_nat (String.length pre))%Z as Dot.
  { unfold rfind. rewrite rfind_from_app.
    rewrite rfind_from_absent by exact Db.
    pose proof (rfind_from_bounds "." pre 0 (-1) ltac:(lia)). lia. }
  assert ((rfind "/" (pre +:+ base) <? rfind "." (pre +:+ base))%Z = false)
    as -> by (apply Z.ltb_ge; lia).
  unfold slice_to. rewrite substring_0_0. reflexivity.
Qed.

(** The two parts that [splitext] returns make up the name. *)
Lemma splitext_join (p : string) :
  fst (splitext p) +:+ snd (splitext p) = p.
Proof.
  unfold splitext.
  assert (p +:+ slice_to p 0 = p) as E
    by (unfold slice_to; rewrite substring_0_0; apply append_empty).
  destruct (rfind "/" p <? rfind "." p)%Z; [|exact E].
  destruct (skip_leading_dots _ _ _ _); [|exact E].
  cbn [fst snd]. unfold slice_to, slice_from. apply substring_join.
Qed.

End splitext_facts.

Section validator_facts.

Lemma lower_keeps_punctuation (x : ascii) :
  Ascii.eqb (lower x) "." = Ascii.eqb x "."
  /\ Ascii.eqb (lower x) "/" = Ascii.eqb x "/".
Proof.
  destruct x as [[] [] [] [] [] [] [] []]; split; vm_compute; reflexivity.
Qed.

Lemma occurs_str_lower (s : string) :
  occurs "." (str_lower s) = occurs "." s
  /\ occurs "/" (str_lower s) = occurs "/" s.
Proof.
  induction s as [|x s [IH1 IH2]]; [split; reflexivity|].
  cbn [str_lower occurs].
  destruct (lower_keeps_punctuation x) as [-> ->].
  rewrite IH1, IH2. split; reflexivity.
Qed.

Lemma str_in_In (x : string) (l : list string) :
  str_in x l = true <-> In x l.
Proof.
  unfold str_in. rewrite List.existsb_exists. split.
  - intros (y & I & E). apply String.eqb_eq in E. subst y. exact I.
  - intros I. exists x. split; [exact I|apply String.eqb_refl].
Qed.

(** An extension of the list, in any letter case, is a dot followed by
    letters. *)
Lemma valid_extension_shape (ext : string) :
  In (str_lower ext) valid_extensions ->
  exists e, ext = String "." e
            /\ occurs "." e = false /\ occurs "/" e = false.
Proof.
  intros I.
  destruct ext as [|x e]; [cbn in I; intuition discriminate|].
  cbn [str_lower] in I.
  assert (lower x = "."%char
          /\ occurs "." (str_lower e) = false
          /\ occurs "/" (str_lower e) = false) as (Lx & D & S).
  { destruct I as [E|[E|[E|[]]]]; injection E as E1 E2;
      rewrite <- E1, <- E2; repeat split. }
  exists e.
  destruct (lower_keeps_punctuation x) as [P _].
  rewrite Lx in P. symmetry in P. apply Ascii.eqb_eq in P. subst x.
  destruct (occurs_str_lower e) as [<- <-]. tauto.
Qed.

Lemma validator_run (value : FieldFile) (stdout : list string) :
  allow_only_images_validator value stdout
  = ((stdout ++ [snd (splitext (name value))])%list,
     if str_in (str_lower (snd (splitext (name value)))) valid_extensions
     then Passed
     else ValidationError
            "Unsupported file extension. Allowed extensions: ['.png', '.jpg', '.jpeg']").
Proof.
  unfold allow_only_images_validator.
  destruct (str_in _ valid_extensions); reflexivity.
Qed.

(** X25: the validator passes every name made of an optional directory
    prefix, a stem that has a character other than a dot and no separator,
    and one of the extensions [.png], [.jpg], [.jpeg] in any letter case; it
    prints that extension. *)
Theorem validator_accepts_images (pre stem ext : string)
    (stdout : list string) :
  directory_prefix pre ->
  occurs "/" stem = false ->
  only_dots stem = false ->
  In (str_lower ext) valid_extensions ->
  allow_only_images_validator (mk_FieldFile (pre +:+ stem +:+ ext)) stdout
  = ((stdout ++ [ext])%list, Passed).
Proof.
  intros D S N I.
  destruct (valid_extension_shape ext I) as (e & -> & De & Se).
  rewrite validator_run. cbn [name].
  rewrite (splitext_shape pre stem e D S De Se), N. cbn [snd].
  apply str_in_In in I. rewrite I. reflexivity.
Qed.

(** X26: what the validator does with any name.  It prints, once, the
    extension that [splitext] splits off, an end of the name; it passes
    exactly when that extension is, up to letter case, [.png], [.jpg] or
    [.jpeg]; and when it does not pass it raises [ValidationError] with the
    message that lists the three extensions. *)
Theorem validator_passes_only_images (value : FieldFile)
    (stdout : list string) :
  fst (allow_only_images_validator value stdout)
  = (stdout ++ [snd (splitext (name value))])%list
  /\ (exists root, name value = root +:+ snd (splitext (name value)))
  /\ (snd (allow_only_images_validator value stdout) = Passed
      <-> In (str_lower (snd (splitext (name value)))) valid_extensions)
  /\ (snd (allow_only_images_validator value stdout) <> Passed ->
      snd (allow_only_images_validator value stdout)
      = ValidationError
          "Unsupported file extension. Allowed extensions: ['.png', '.jpg', '.jpeg']").
Proof.
  rewrite validator_run. cbn [fst snd].
  split; [reflexivity|].
  split; [exists (fst (splitext (name value))); symmetry;
          apply splitext_join|].
  rewrite <- str_in_In.
  destruct (str_in _ valid_extensions); repeat split;
    try discriminate; congruence.
Qed.

(** X27: names the validator rejects with [ValidationError]: a name with no
    dot after its last separator, and a name whose last dot has only dots
    before it in the file name, as the name [.png] has; for both the
    extension it prints is empty. *)
Theorem validator_rejects_without_extension (pre : string)
    (stdout : list string) :
  directory_prefix pre ->
  (forall base,
      occurs "/" base = false -> occurs "." base = false ->
      allow_only_images_validator (mk_FieldFile (pre +:+ base)) stdout
      = ((stdout ++ [EmptyString])%list,
         ValidationError
           "Unsupported file extension. Allowed extensions: ['.png', '.jpg', '.jpeg']"))
  /\ (forall dots e,
         only_dots dots = true ->
         occurs "." e = false -> occurs "/" e = false ->
         allow_only_images_validator
           (mk_FieldFile (pre +:+ dots +:+ "." +:+ e)) stdout
         = ((stdout ++ [EmptyString])%list,
            ValidationError
              "Unsupported file extension. Allowed extensions: ['.png', '.jpg', '.jpeg']")).
Proof.
  intros D. split.
  - intros base S N. rewrite validator_run. cbn [name].
    rewrite (splitext_no_dot pre base D S N). reflexivity.
  - intros dots e O De Se. rewrite validator_run. cbn [name].
    change ("." +:+ e) with (String "." e).
    rewrite (splitext_shape pre dots e D (only_dots_no_separator _ O) De Se).
    rewrite O. reflexivity.
Qed.

End validator_facts.

(** ** The further theorems at work on the sample data *)

Section witnesses_more.
#[local] Existing Instance samples.decimal_floats.
#[local] Existing Instance samples.sample_django.
#[local] Existing Instance samples_more.sample_auth.
#[local] Existing Instance samples_more.profile_database.
#[local] Existing Instance samples_more.vendor_database.
#[local] Existing Instance samples_more.account_database.

Lemma strptime_strftime_round_trip_witness :
  strptime_I_M_p (strftime_I_M_p (mk_time 17 30 12 5))
  = Ret (mk_time 17 30 0 0).
Proof.
  apply (strptime_strftime_round_trip (mk_time 17 30 12 5)); cbn; lia.
Defined.

Lemma is_open_returns_on_slots_witness :
  exists answer,
    is_open samples.kitchen (mk_Clock samples.monday (mk_time 12 0 0 0))
      samples.store0
    = Ret answer.
Proof.
  apply is_open_returns_on_slots.
  intros i [<-|[<-|[]]] _ _; split; vm_compute; tauto.
Defined.

Lemma is_open_raises_on_malformed_witness :
  is_open samples.kitchen (mk_Clock samples.monday (mk_time 12 0 0 0))
    (with_opening_hours [samples_more.blank_from] samples.store0)
  = Raise ValueError
  /\ strptime_I_M_p EmptyString = Raise ValueError.
Proof.
  apply (is_open_raises_on_malformed samples.kitchen
           (mk_Clock samples.monday (mk_time 12 0 0 0))
           (with_opening_hours [samples_more.blank_from] samples.store0)
           samples_more.blank_from).
  - left. reflexivity.
  - split; reflexivity.
  - split; [reflexivity|]. left. exists ValueError. reflexivity.
  - intros i [<-|[]] _. split; [split|]; reflexivity.
Defined.

Lemma is_open_order_matters_when_malformed_witness :
  is_open_from "12:00:00" [samples.nine_to_five; samples_more.blank_from]
    None = Ret (Some true)
  /\ is_open_from "12:00:00" [samples_more.blank_from; samples.nine_to_five]
       None = Raise ValueError.
Proof.
  apply is_open_order_matters_when_malformed.
  - split; reflexivity.
  - split; reflexivity.
  - reflexivity.
  - split; [reflexivity|]. left. exists ValueError. reflexivity.
Defined.

Lemma is_open_ignores_other_rows_witness :
  is_open samples.kitchen (mk_Clock samples.monday (mk_time 12 0 0 0))
    (with_opening_hours
       (opening_hours samples.store0 ++ [samples_more.elsewhere])%list
       samples.store0)
  = is_open samples.kitchen (mk_Clock samples.monday (mk_time 12 0 0 0))
      samples.store0.
Proof.
  apply (is_open_ignores_other_rows samples.kitchen
           (mk_Clock samples.monday (mk_time 12 0 0 0)) samples.store0
           [samples_more.elsewhere]).
  intros i [<-|[]] [V _]. discriminate V.
Defined.

Lemma is_open_never_for_inverted_windows_witness :
  is_open samples.kitchen (mk_Clock samples.monday (mk_time 23 0 0 0))
    (with_opening_hours [samples_more.overnight] samples.store0)
  <> Ret (Some true).
Proof.
  apply is_open_never_for_inverted_windows.
  - unfold valid_time. cbn. lia.
  - intros i [<-|[]] _. split; reflexivity.
  - intros i t1 t2 [<-|[]] _ E1 E2.
    vm_compute in E1, E2. injection E1 as <-. injection E2 as <-.
    reflexivity.
Defined.

Lemma is_open_never_around_midnight_witness :
  is_open samples.kitchen (mk_Clock samples.monday (mk_time 0 0 0 700000))
    samples.store0
  <> Ret (Some true).
Proof.
  apply (proj1 (is_open_never_around_midnight samples.kitchen
                  (mk_Clock samples.monday (mk_time 0 0 0 700000))
                  samples.store0 ltac:(unfold valid_time; cbn; lia))).
  left. cbn. tauto.
Defined.

Lemma save_missing_row_witness :
  save (mk_Vendor (Some 99%Z) samples.owner samples.home "Ghost" "ghost"
          "vendor/license/g.png" true) samples.store0
  = Err DoesNotExist samples.store0.
Proof.
  apply (save_missing_row _ samples.store0 99%Z); reflexivity.
Defined.

Lemma save_aborts_when_mail_fails_witness :
  @save samples.decimal_floats samples_more.no_templates
    samples_more.vendor_database samples_more.approved_kitchen samples.store0
  = Err TemplateDoesNotExist samples.store0
  /\ orm.rows (vendors samples.store0) !! 3%Z = Some samples.kitchen.
Proof.
  apply (@save_aborts_when_mail_fails samples.decimal_floats
           samples_more.no_templates samples_more.vendor_database
           samples_more.approved_kitchen
           samples.kitchen samples.store0 3%Z TemplateDoesNotExist);
    try reflexivity.
  discriminate.
Defined.


Lemma save_again_is_silent_witness :
  outbox (final (save samples_more.diner samples_more.store2))
  = outbox samples_more.store2.
Proof.
  apply (proj1 (save_again_is_silent samples_more.diner
                  samples_more.store2) 3%Z);
    reflexivity.
Defined.

Lemma UserProfile_save_keeps_location_witness :
  exists saved t',
    UserProfile_save samples_more.moved samples.empty_table = Ok saved t'
    /\ location saved = Some (mk_Point (1 # 1) (2 # 1))
    /\ latitude saved = None
    /\ longitude saved = Some "77.6".
Proof.
  destruct (UserProfile_save_keeps_location samples_more.moved
              samples.empty_table (or_introl eq_refl))
    as (Fields & _ & Returns).
  destruct Returns as (saved & t' & E);
    [split; [reflexivity|intros _; reflexivity]|].
  exists saved, t'. split; [exact E|].
  destruct (Fields saved t' E) as (L & La & Lo & _).
  rewrite L, La, Lo. repeat split.
Defined.

Lemma UserProfile_save_bad_coordinate_witness :
  UserProfile_save samples_more.misread samples.empty_table
  = Err ValueError samples.empty_table.
Proof.
  apply (proj2 (UserProfile_save_bad_coordinate samples_more.misread
                  samples.empty_table "north" "77.6" ValueError
                  eq_refl ltac:(discriminate) eq_refl ltac:(discriminate))
           (388 # 5)%Q); reflexivity.
Defined.


Lemma get_role_agrees_with_detectUser_witness :
  get_role samples.admin = Raise UnboundLocalError
  /\ get_role samples.owner = Ret "Vendor".
Proof.
  split.
  - apply (proj2 (proj2 (proj2 (proj2
             (get_role_agrees_with_detectUser samples.admin))))).
    left. reflexivity.
  - apply (proj2 (proj1 (get_role_agrees_with_detectUser samples.owner))).
    reflexivity.
Defined.

Lemma accessors_find_the_row_witness :
  get_vendor (mk_HttpRequest (LoggedIn samples.owner)) samples.store0
  = Ok (<["vendor" := Some samples.kitchen]> ∅) samples.store0.
Proof.
  apply (proj1 (accessors_find_the_row
                  (mk_HttpRequest (LoggedIn samples.owner)) samples.store0
                  samples.owner eq_refl) 3%Z samples.kitchen).
  - reflexivity.
  - reflexivity.
  - intros k' v' N R. cbn in R.
    rewrite lookup_insert_ne in R by congruence. discriminate R.
Defined.

Lemma get_vendor_after_save_witness :
  exists saved s',
    save samples_more.new_stall samples_more.store2 = Ok saved s'
    /\ get_vendor (mk_HttpRequest (LoggedIn samples.admin)) s'
       = Ok (<["vendor" := Some saved]> ∅) s'.
Proof.
  assert (exists saved s',
             save samples_more.new_stall samples_more.store2 = Ok saved s')
    as (saved & s' & E).
  { rewrite save_run. cbn [vendor_pk samples_more.new_stall].
    destruct (write_accepted samples_more.new_stall samples_more.store2)
      as (saved & s' & E & _); [|eauto].
    split; [vm_compute; reflexivity|intros _; reflexivity]. }
  exists saved, s'. split; [exact E|].
  apply (get_vendor_after_save samples_more.new_stall saved
           samples_more.store2 s'
           (mk_HttpRequest (LoggedIn samples.admin)) eq_refl E).
  intros k' v' R _. cbn in R.
  destruct (decide (k' = 3%Z)) as [->|N].
  - rewrite lookup_insert_eq in R. injection R as <-. discriminate.
  - rewrite lookup_insert_ne in R by congruence. discriminate R.
Defined.

Lemma create_user_requires_email_and_username_witness :
  create_user "Asha" "Rao" (Some "asha") None (Some "secret") "salt"
    samples.empty_table
  = Err ValueError samples.empty_table.
Proof.
  apply (proj1 (create_user_requires_email_and_username "Asha" "Rao"
                  (Some "asha") None (Some "secret") "salt"
                  samples.empty_table)).
  reflexivity.
Defined.

Lemma create_user_makes_plain_inactive_user_witness :
  exists a t',
    create_user "Asha" "Rao" (Some "asha") (Some "asha@example.org")
      (Some "secret") "salt" samples_more.registered
    = Ok a t'
    /\ account_pk a = Some 2%Z
    /\ is_active (fields a) = false
    /\ detectUser (fields a) = None.
Proof.
  destruct (@create_user_makes_plain_inactive_user samples_more.sample_auth
              samples_more.account_database "Asha" "Rao"
              (Some "asha") (Some "asha@example.org") (Some "secret")
              "salt" samples_more.registered eq_refl eq_refl)
    as (Facts & _ & Returns).
  destruct Returns as (a & t' & E);
    [split; [vm_compute; reflexivity|intros _; reflexivity]|].
  exists a, t'. split; [exact E|].
  destruct (Facts a t' E)
    as (Pk & _ & _ & _ & _ & _ & _ & _ & A & _ & _ & D & _).
  repeat split; assumption.
Defined.

Lemma create_superuser_makes_admin_witness :
  exists a t',
    create_superuser "Maya" "Iyer" (Some "maya") (Some "maya@example.org")
      None "salt" samples_more.registered
    = Ok a t'
    /\ account_pk a = Some 2%Z
    /\ is_superadmin (fields a) = true
    /\ detectUser (fields a) = Some "/admin".
Proof.
  destruct (proj2 (@create_superuser_makes_admin samples_more.sample_auth
                     samples_more.account_database "Maya" "Iyer"
                     (Some "maya") (Some "maya@example.org") None "salt"
                     samples_more.registered)
              ltac:(cbn; discriminate) eq_refl)
    as (Facts & Returns).
  destruct Returns as (a & t' & E).
  - split; [vm_compute; reflexivity|intros _; reflexivity].
  - intros user t1 S.
    rewrite (@create_user_run samples_more.sample_auth
               samples_more.account_database "Maya" "Iyer" (Some "maya")
               (Some (@normalize_email samples_more.sample_auth
                        (Some "maya@example.org"))) None
               "salt" samples_more.registered eq_refl eq_refl) in S.
    apply (orm_save_new account_pk with_account_pk) in S
      as (-> & _ & ->); [|reflexivity].
    vm_compute. reflexivity.
  - exists a, t'. split; [exact E|].
    destruct (Facts a t' E)
      as (Pk & _ & _ & _ & _ & _ & _ & _ & _ & _ & _ & S & _ & D & _).
    repeat split; assumption.
Defined.

Lemma validator_accepts_images_witness :
  allow_only_images_validator
    (mk_FieldFile ("uploads/" +:+ "Logo" +:+ ".PNG")) []
  = ([".PNG"], Passed).
Proof.
  apply (validator_accepts_images "uploads/" "Logo" ".PNG" []).
  - right. exists "uploads". reflexivity.
  - reflexivity.
  - reflexivity.
  - left. reflexivity.
Defined.

Lemma validator_passes_only_images_witness :
  snd (allow_only_images_validator (mk_FieldFile "cover-image.JPG") [])
  = Passed.
Proof.
  apply (proj2 (proj1 (proj2 (proj2
           (validator_passes_only_images
              (mk_FieldFile "cover-image.JPG") []))))).
  vm_compute. tauto.
Defined.

Lemma validator_rejects_without_extension_witness :
  allow_only_images_validator
    (mk_FieldFile (EmptyString +:+ EmptyString +:+ "." +:+ "png")) []
  = ([EmptyString],
     ValidationError
       "Unsupported file extension. Allowed extensions: ['.png', '.jpg', '.jpeg']").
Proof.
  apply (proj2 (validator_rejects_without_extension EmptyString []
                  (or_introl eq_refl)) EmptyString "png"); reflexivity.
Defined.

End witnesses_more.
